(** * Storefront API client (src/lib/api.ts): guest token, seller lookup,
      catalog fetch and product normalisation.

    The TypeScript module is embedded shallowly.  JavaScript values that come
    out of [JSON.parse] are kept untyped ([JsVal]), because the code casts
    them to its interfaces without any check and then guards against missing
    fields by truthiness tests and optional chaining.  The asynchronous
    functions are sequential (every call is awaited), so they become
    computations in a state-and-exception monad over the token cache, the
    list of network requests sent so far and the number of clock reads. *)

From Stdlib Require Import ZArith NArith QArith List Bool Ascii String Lia.
From Stdlib Require Import Numbers.DecimalString.
Import ListNotations.

Set Warnings "-register-all".

Local Open Scope string_scope.
Local Open Scope Z_scope.

(** ** JavaScript strings

    A string is a sequence of code units; the model keeps the code units
    below 256 (U+0000 .. U+00FF), which is the range of [ascii]. *)

Module JsString.

Definition code (c : ascii) : N := N_of_ascii c.

(** WhiteSpace and LineTerminator code points below 256: TAB, LF, VT, FF,
    CR, SP and NBSP. *)
Definition isWhiteSpace (c : ascii) : bool :=
  let n := code c in
  ((9 <=? n) && (n <=? 13) || (n =? 32) || (n =? 160))%N.

Fixpoint trimStart (s : string) : string :=
  match s with
  | EmptyString => EmptyString
  | String c s' => if isWhiteSpace c then trimStart s' else s
  end.

Fixpoint trimEnd (s : string) : string :=
  match s with
  | EmptyString => EmptyString
  | String c s' =>
      match trimEnd s' with
      | EmptyString => if isWhiteSpace c then EmptyString else String c EmptyString
      | t => String c t
      end
  end.

(** [String.prototype.trim] *)
Definition trim (s : string) : string := trimEnd (trimStart s).

(** Upper-case letters below 256: A-Z, and U+00C0 .. U+00DE without the
    multiplication sign U+00D7; each maps to the code point 32 above. *)
Definition toLowerChar (c : ascii) : ascii :=
  let n := code c in
  if (((65 <=? n) && (n <=? 90))
      || ((192 <=? n) && (n <=? 222) && negb (n =? 215)))%N
  then ascii_of_N (n + 32) else c.

(** [String.prototype.toLowerCase] *)
Fixpoint toLowerCase (s : string) : string :=
  match s with
  | EmptyString => EmptyString
  | String c s' => String (toLowerChar c) (toLowerCase s')
  end.

Fixpoint startsWith (s prefix : string) {struct prefix} : bool :=
  match prefix with
  | EmptyString => true
  | String a p' =>
      match s with
      | EmptyString => false
      | String b s' => Ascii.eqb a b && startsWith s' p'
      end
  end.

(** [String.prototype.includes] *)
Fixpoint includes (s needle : string) : bool :=
  startsWith s needle
  || match s with
     | EmptyString => false
     | String _ s' => includes s' needle
     end.

Fixpoint drop (n : nat) (s : string) : string :=
  match n, s with
  | O, _ => s
  | S _, EmptyString => EmptyString
  | S n', String _ s' => drop n' s'
  end.

(** [String.prototype.replace] with a string pattern: the first occurrence
    is replaced.  The replacement is inserted as it is (the code passes the
    empty string, which holds no replacement pattern). *)
Fixpoint replace (s pattern replacement : string) : string :=
  if startsWith s pattern then replacement ++ drop (String.length pattern) s
  else match s with
       | EmptyString => EmptyString
       | String c s' => String c (replace s' pattern replacement)
       end.

(** Decimal rendering of a non-negative integer, as a template literal
    renders it. *)
Definition ofN (n : N) : string := NilEmpty.string_of_uint (N.to_uint n).

(** [Number.prototype.toString] on an integer. *)
Definition ofZ (z : Z) : string := NilEmpty.string_of_int (Z.to_int z).

End JsString.

(** ** JavaScript numbers

    A finite number is kept as the exact rational it denotes (reduced, so
    that equal numbers are equal terms); the engine holds the double nearest
    to it.  Negative zero is not told apart from zero. *)

Inductive Number : Type :=
| NaN
| Infinity (negative : bool)
| Finite (q : Q).

Module JsNumber.

Definition zero : Number := Finite 0%Q.

Definition ofN (n : N) : Number := Finite (inject_Z (Z.of_N n)).

(** ToBoolean on a number: NaN and zero are falsy. *)
Definition truthy (n : Number) : bool :=
  match n with
  | NaN => false
  | Infinity _ => true
  | Finite q => negb (Qeq_bool q 0)
  end.

(** The number [mantissa * 10 ^ exponent]. *)
Definition decimal (mantissa exponent : Z) : Q :=
  if 0 <=? exponent
  then inject_Z (mantissa * 10 ^ exponent)
  else Qred (Qmake mantissa (Z.to_pos (10 ^ (- exponent)))).

Definition isDigit (c : ascii) : bool :=
  let n := JsString.code c in ((48 <=? n) && (n <=? 57))%N.

Definition digitValue (c : ascii) : Z := Z.of_N (JsString.code c) - 48.

(** Reads the longest run of decimal digits: the accumulated value, the
    number of digits read and the rest of the text. *)
Fixpoint scanDigits (s : string) (acc : Z) (count : Z) : Z * Z * string :=
  match s with
  | EmptyString => (acc, count, s)
  | String c s' =>
      if isDigit c then scanDigits s' (10 * acc + digitValue c) (count + 1)
      else (acc, count, s)
  end.

(** ExponentPart: [e] or [E], an optional sign and at least one digit;
    otherwise no exponent is read. *)
Definition scanExponent (s : string) : Z :=
  match s with
  | String c s1 =>
      if (Ascii.eqb c "e" || Ascii.eqb c "E")%char then
        let '(negative, s2) :=
          match s1 with
          | String "-"%char r => (true, r)
          | String "+"%char r => (false, r)
          | _ => (false, s1)
          end in
        let '(e, n, _) := scanDigits s2 0 0 in
        if n =? 0 then 0 else if negative : bool then - e else e
      else 0
  | EmptyString => 0
  end.

(** [parseFloat]: leading white space is skipped, then the longest prefix
    that is a StrDecimalLiteral is read; NaN when there is none. *)
Definition parseFloat (input : string) : Number :=
  let s := JsString.trimStart input in
  let '(negative, s1) :=
    match s with
    | String "-"%char r => (true, r)
    | String "+"%char r => (false, r)
    | _ => (false, s)
    end in
  if JsString.startsWith s1 "Infinity" then Infinity negative
  else
    let '(ip, ni, s2) := scanDigits s1 0 0 in
    let '(mantissa, nf, s3) :=
      match s2 with
      | String "."%char r => scanDigits r ip 0
      | _ => (ip, 0, s2)
      end in
    if (ni =? 0) && (nf =? 0) then NaN
    else
      let signed := if negative : bool then - mantissa else mantissa in
      Finite (decimal signed (scanExponent s3 - nf)).

End JsNumber.

(** ** JavaScript values and exceptions *)

Inductive JsVal : Type :=
| JUndefined
| JNull
| JBool (b : bool)
| JNum (n : Number)
| JStr (s : string)
| JArr (items : list JsVal)
| JObj (props : list (string * JsVal)).

(** What a [throw] carries: [new Error(message)], or an exception of the
    runtime or of the platform. *)
Inductive Thrown : Type :=
| Error (message : string)
| TypeError
| SyntaxError
| RangeError
| Rejection (reason : string).

Inductive Result (A : Type) : Type :=
| Ok (a : A)
| Throw (e : Thrown).

Arguments Ok {A} a.
Arguments Throw {A} e.

Module Js.

(** ToBoolean *)
Definition truthy (v : JsVal) : bool :=
  match v with
  | JUndefined | JNull => false
  | JBool b => b
  | JNum n => JsNumber.truthy n
  | JStr s => negb (String.eqb s "")
  | JArr _ | JObj _ => true
  end.

Definition nullish (v : JsVal) : bool :=
  match v with
  | JUndefined | JNull => true
  | _ => false
  end.

(** Own property of an object literal; keys are kept distinct. *)
Fixpoint lookup (k : string) (props : list (string * JsVal)) : JsVal :=
  match props with
  | [] => JUndefined
  | (k', v) :: rest => if String.eqb k k' then v else lookup k rest
  end.

(** [v?.k].  The code reads data properties only, none of them inherited
    from a prototype; of the built-in ones it reads [length]. *)
Definition getPropOpt (v : JsVal) (k : string) : JsVal :=
  match v with
  | JObj props => lookup k props
  | JStr s =>
      if String.eqb k "length"
      then JNum (JsNumber.ofN (N.of_nat (String.length s))) else JUndefined
  | JArr items =>
      if String.eqb k "length"
      then JNum (JsNumber.ofN (N.of_nat (List.length items))) else JUndefined
  | _ => JUndefined
  end.

(** [v.k]: a TypeError on [undefined] and [null]. *)
Definition getProp (v : JsVal) (k : string) : Result JsVal :=
  if nullish v then Throw TypeError else Ok (getPropOpt v k).

(** [v[0]] *)
Definition first (v : JsVal) : Result JsVal :=
  match v with
  | JUndefined | JNull => Throw TypeError
  | JArr (x :: _) => Ok x
  | JStr (String c _) => Ok (JStr (String c EmptyString))
  | JObj props => Ok (lookup "0" props)
  | _ => Ok JUndefined
  end.

Definition isArray (v : JsVal) : bool :=
  match v with
  | JArr _ => true
  | _ => false
  end.

(** [v === 0] *)
Definition isZero (v : JsVal) : bool :=
  match v with
  | JNum (Finite q) => Qeq_bool q 0
  | _ => false
  end.

(** A method of [String.prototype] called on [v]: values parsed from JSON
    hold no functions, so the call succeeds on strings only. *)
Definition stringMethod {A : Type} (v : JsVal) (f : string -> A) : Result A :=
  match v with
  | JStr s => Ok (f s)
  | _ => Throw TypeError
  end.

(** [a || b] *)
Definition or (a b : JsVal) : JsVal := if truthy a then a else b.

End Js.

(** ** The world outside the module *)

Inductive Method : Type := GET | POST.

Inductive Body : Type :=
| NoBody
| Fingerprint (deviceId : string) (ipAddress : JsVal) (appVersion deviceMake
    deviceModel deviceOsVersion : string) (deviceType : N) (deviceTime : string)
| Asins (asins : list string).

Record Request : Type := mkRequest {
  method : Method;
  url : string;
  headers : list (string * string);
  body : Body
}.

Record Response : Type := mkResponse {
  status : N;
  statusText : string;
  (** what [response.text()] settles to *)
  text : Result string
}.

(** [response.ok] *)
Definition ok (r : Response) : bool := ((200 <=? status r) && (status r <=? 299))%N.

Inductive FetchOutcome : Type :=
| Rejected (e : Thrown)
| Resolved (r : Response).

(** What the module does not decide: the JSON parser of the engine, the
    clock, the random source, the environment variable and the servers.  The
    servers may answer by the requests seen so far. *)
Record World : Type := mkWorld {
  NEXT_PUBLIC_API_BASE_URL : option string;
  JSON_parse : string -> option JsVal;
  Date_now : nat -> Z;
  randomUUID : nat -> string;
  network : list Request -> Request -> FetchOutcome
}.

(** The body of the response kept under the cache key.  [cacheToken] writes
    [JSON.stringify] of this object and [getCachedToken] reads it back with
    [json()]; the round trip through the text is left out. *)
Record CachedData : Type := mkCachedData {
  token : string;
  expires : Z
}.

(** The global [caches]: undefined outside edge environments, otherwise the
    entry of cache 'guest-token-cache' under the one key the module uses.
    A cache that is not operational rejects [open], [match] and [put]. *)
Inductive CacheStorage : Type :=
| CachesUndefined
| Caches (operational : bool) (entry : option CachedData).

Record State : Type := mkState {
  caches : CacheStorage;
  requests : list Request;
  clock_reads : nat;
  uuids_drawn : nat
}.

(** ** Sequential code that may throw *)

Definition M (A : Type) : Type := State -> Result A * State.

Definition ret {A : Type} (a : A) : M A := fun st => (Ok a, st).

Definition throw {A : Type} (e : Thrown) : M A := fun st => (Throw e, st).

Definition lift {A : Type} (r : Result A) : M A := fun st => (r, st).

Definition bind {A B : Type} (m : M A) (k : A -> M B) : M B :=
  fun st =>
    match m st with
    | (Ok a, st') => k a st'
    | (Throw e, st') => (Throw e, st')
    end.

(** [try { m } catch (e) { handler e }]: the effects of [m] up to the throw
    stay. *)
Definition try_catch {A : Type} (m : M A) (handler : Thrown -> M A) : M A :=
  fun st =>
    match m st with
    | (Ok a, st') => (Ok a, st')
    | (Throw e, st') => handler e st'
    end.

Declare Scope js_scope.
Delimit Scope js_scope with js.
Notation "x <- m ;; k" := (bind m (fun x => k))
  (at level 61, m at next level, right associativity) : js_scope.
Notation "m ;;; k" := (bind m (fun _ => k))
  (at level 61, right associativity) : js_scope.
Local Open Scope js_scope.

(** [Date.now()] *)
Definition now (w : World) : M Z :=
  fun st =>
    (Ok (Date_now w (clock_reads st)),
     mkState (caches st) (requests st) (S (clock_reads st)) (uuids_drawn st)).

(** [crypto.randomUUID()] *)
Definition newUUID (w : World) : M string :=
  fun st =>
    (Ok (randomUUID w (uuids_drawn st)),
     mkState (caches st) (requests st) (clock_reads st) (S (uuids_drawn st))).

(** [await fetch(url, init)]: the request is sent, then the promise settles. *)
Definition fetch (w : World) (req : Request) : M Response :=
  fun st =>
    let st' := mkState (caches st) (requests st ++ [req]) (clock_reads st)
                 (uuids_drawn st) in
    match network w (requests st) req with
    | Rejected e => (Throw e, st')
    | Resolved r => (Ok r, st')
    end.

(** [JSON.parse(text)] *)
Definition parseJSON (w : World) (t : string) : Result JsVal :=
  match JSON_parse w t with
  | Some v => Ok v
  | None => Throw SyntaxError
  end.

(** [await response.json()] *)
Definition json (w : World) (r : Response) : Result JsVal :=
  match text r with
  | Ok t => parseJSON w t
  | Throw e => Throw e
  end.

(** [let responseText = ''; try { responseText = await response.text() }
    catch (bodyError) { }] *)
Definition readBody (r : Response) : string :=
  match text r with
  | Ok t => t
  | Throw _ => ""
  end.

(** ** src/lib/api.ts *)

Definition API_BASE_URL (w : World) : string :=
  match NEXT_PUBLIC_API_BASE_URL w with
  | Some base => if String.eqb base "" then "https://api.trulyfreehome.dev" else base
  | None => "https://api.trulyfreehome.dev"
  end.

Definition IP_API_URL : string := "https://api.ipify.org/?format=json".
Definition GUEST_TOKEN_CACHE_KEY : string := "tfh-guest-token".
Definition GUEST_TOKEN_TTL : Z := 600.

Definition isCachesAPIAvailable (st : State) : bool :=
  match caches st with
  | CachesUndefined => false
  | Caches _ _ => true
  end.

(** [caches.open('guest-token-cache')] followed by
    [cache.match(cacheRequest)] *)
Definition cacheMatch : M (option CachedData) :=
  fun st =>
    match caches st with
    | Caches true entry => (Ok entry, st)
    | _ => (Throw TypeError, st)
    end.

(** [caches.open('guest-token-cache')] *)
Definition cacheOpen : M unit :=
  fun st =>
    match caches st with
    | Caches true _ => (Ok tt, st)
    | _ => (Throw TypeError, st)
    end.

(** [cache.put(cacheRequest, cacheResponse)]: any entry under the key is
    overwritten. *)
Definition cachePut (d : CachedData) : M unit :=
  fun st =>
    match caches st with
    | Caches true _ =>
        (Ok tt, mkState (Caches true (Some d)) (requests st) (clock_reads st)
                  (uuids_drawn st))
    | _ => (Throw TypeError, st)
    end.

(** The largest time value a [Date] holds: 8.64e15 ms either side of the
    epoch. *)
Definition MAX_TIME_VALUE : Z := 8640000000000000.

(** [new Date(t).toISOString()]: outside the time range the date is invalid
    and the call throws a RangeError.  The text it returns is only logged. *)
Definition toISOString (t : Z) : Result unit :=
  if Z.abs t <=? MAX_TIME_VALUE then Ok tt else Throw RangeError.

(** [getCachedToken]: [None] is [null].  On the branch that returns the
    token, the log line renders [new Date(cachedData.expires).toISOString()]
    first, inside the [try]. *)
Definition getCachedToken (w : World) : M (option string) :=
  fun st =>
    if negb (isCachesAPIAvailable st) then ret None st
    else
      try_catch
        (cachedResponse <- cacheMatch ;;
         match cachedResponse with
         | Some cachedData =>
             if negb (String.eqb (token cachedData) "") then
               t <- now w ;;
               if t <? expires cachedData then
                 lift (toISOString (expires cachedData)) ;;;
                 ret (Some (token cachedData))
               else ret None
             else ret None
         | None => ret None
         end)
        (fun _ => ret None) st.

(** [cacheToken] *)
Definition cacheToken (w : World) (tok : string) : M unit :=
  fun st =>
    if negb (isCachesAPIAvailable st) then ret tt st
    else
      try_catch
        (cacheOpen ;;;
         t <- now w ;;
         cachePut (mkCachedData tok (t + GUEST_TOKEN_TTL * 1000)))
        (fun _ => ret tt) st.

Definition ipRequest : Request :=
  mkRequest GET IP_API_URL
    [("accept", "application/json, text/plain, */*");
     ("accept-language", "en-GB,en-US;q=0.9,en;q=0.8")]
    NoBody.

(** [getUserIP].  The declared result type is [string]; what is returned on
    success is the [ip] property of the parsed body, whatever it holds. *)
Definition getUserIP (w : World) : M JsVal :=
  try_catch
    (response <- fetch w ipRequest ;;
     if negb (ok response)
     then throw (Error ("Failed to fetch IP: " ++ JsString.ofN (status response)))
     else
       data <- lift (json w response) ;;
       lift (Js.getProp data "ip"))
    (fun _ => ret (JStr "152.59.204.243")).

Definition tokenRequest (w : World) (deviceId : string) (ipAddress : JsVal)
    (deviceTime : string) : Request :=
  mkRequest POST (API_BASE_URL w ++ "/v1/guest/signIn")
    [("accept", "application/json, text/plain, */*");
     ("accept-language", "en-GB,en-US;q=0.9,en;q=0.8");
     ("content-type", "application/json");
     ("currencycode", "INR");
     ("currencysymbol", "4oK5");
     ("language", "en");
     ("platform", "3")]
    (Fingerprint deviceId ipAddress "1.0.0" "Google Inc." "MacIntel 1470x956"
       "Mozilla/5.0 (Macintosh; Intel Mac OS X 10_15_7) AppleWebKit/537.36 (KHTML, like Gecko) Chrome/137.0.0.0 Safari/537.36"
       3 deviceTime).

(** [data.data?.token?.accessToken] *)
Definition accessTokenOf (data : JsVal) : Result JsVal :=
  match Js.getProp data "data" with
  | Ok d => Ok (Js.getPropOpt (Js.getPropOpt d "token") "accessToken")
  | Throw e => Throw e
  end.

(** The part of [getGuestToken] after the fetch has resolved. *)
Definition readGuestToken (w : World) (response : Response) : M string :=
  let responseText := readBody response in
  if negb (ok response)
  then throw (Error ("Failed to fetch guest token: "
                     ++ JsString.ofN (status response) ++ " "
                     ++ statusText response))
  else
    data <- try_catch (lift (parseJSON w responseText))
              (fun _ => throw (Error "Invalid JSON response from guest token API")) ;;
    accessToken <- lift (accessTokenOf data) ;;
    if negb (Js.truthy accessToken)
    then throw (Error "Invalid guest token response: missing accessToken")
    else
      (* the log line calls accessToken.substring(0, 20) *)
      tok <- lift (Js.stringMethod accessToken (fun s => s)) ;;
      cacheToken w tok ;;;
      ret tok.

(** The part of [getGuestToken] between the cache miss and the settled
    fetch: the IP address, the device identifier and time, the POST. *)
Definition exchangeFingerprint (w : World) : M Response :=
  ipAddress <- getUserIP w ;;
  deviceId <- newUUID w ;;
  t <- now w ;;
  fetch w (tokenRequest w deviceId ipAddress (JsString.ofZ t)).

(** [getGuestToken] *)
Definition getGuestToken (w : World) : M string :=
  try_catch
    (cachedToken <- getCachedToken w ;;
     match cachedToken with
     | Some tok => ret tok
     | None =>
         response <- exchangeFingerprint w ;;
         readGuestToken w response
     end)
    (fun _ => throw (Error "Failed to authenticate with API")).

(** [requestId || '31b88e54-acc9-4eee-8d45-e7e6410c448e'] *)
Definition finalRequestId (requestId : option string) : string :=
  match requestId with
  | Some r => if String.eqb r "" then "31b88e54-acc9-4eee-8d45-e7e6410c448e" else r
  | None => "31b88e54-acc9-4eee-8d45-e7e6410c448e"
  end.

Definition sellerRequest (w : World) (requestId tok : string) : Request :=
  mkRequest GET
    (API_BASE_URL w ++ "/api/v1/ai/get_seller_data_by_request_id?request_id="
     ++ requestId)
    [("accept", "*/*");
     ("accept-language", "en-GB,en-US;q=0.9,en;q=0.8");
     ("authorization", tok);
     ("currencycode", "USD");
     ("currencysymbol", "$");
     ("language", "en");
     ("platform", "3")]
    NoBody.

(** [!data.data || !Array.isArray(data.data) || data.data.length === 0],
    given the value of [data.data]. *)
Definition sellerDataInvalid (d : JsVal) : bool :=
  negb (Js.truthy d) || negb (Js.isArray d)
  || Js.isZero (Js.getPropOpt d "length").

(** The log lines after the validation: they read
    [sellerInfo.brand_data.official_brand_name],
    [sellerInfo.amazon_data.products.length] and
    [sellerInfo.amazon_data.products.map(p => p.asin)]. *)
Definition logSellerInfo (sellerInfo : JsVal) : Result unit :=
  match Js.getProp sellerInfo "brand_data" with
  | Throw e => Throw e
  | Ok brand =>
      match Js.getProp brand "official_brand_name" with
      | Throw e => Throw e
      | Ok _ =>
          match Js.getProp (Js.getPropOpt sellerInfo "amazon_data") "products" with
          | Throw e => Throw e
          | Ok products =>
              match Js.getProp products "length" with
              | Throw e => Throw e
              | Ok _ =>
                  match products with
                  | JArr items =>
                      if forallb (fun p => negb (Js.nullish p)) items
                      then Ok tt else Throw TypeError
                  | _ => Throw TypeError
                  end
              end
          end
      end
  end.

(** The part of [getSellerData] after the fetch has resolved. *)
Definition readSellerData (w : World) (response : Response) : M JsVal :=
  let responseText := readBody response in
  if negb (ok response)
  then throw (Error ("Failed to fetch seller data: "
                     ++ JsString.ofN (status response) ++ " "
                     ++ statusText response))
  else
    data <- try_catch (lift (parseJSON w responseText))
              (fun _ => throw (Error "Invalid JSON response from seller data API")) ;;
    d <- lift (Js.getProp data "data") ;;
    if sellerDataInvalid d
    then throw (Error "Invalid seller data response: data array is empty or missing")
    else
      sellerInfo <- lift (Js.first d) ;;
      lift (logSellerInfo sellerInfo) ;;;
      ret data.

(** [getSellerData]: [requestId] is optional. *)
Definition getSellerData (w : World) (requestId : option string) : M JsVal :=
  try_catch
    (tok <- getGuestToken w ;;
     response <- fetch w (sellerRequest w (finalRequestId requestId) tok) ;;
     readSellerData w response)
    (fun error => throw error).

(** [{ products: [], total: 0 }] *)
Definition emptyAmazonProducts : JsVal :=
  JObj [("products", JArr []); ("total", JNum JsNumber.zero)].

(** [asin => asin && asin.trim().length > 0] *)
Definition validAsin (asin : string) : bool :=
  negb (String.eqb asin "")
  && (0 <? String.length (JsString.trim asin))%nat.

Definition amazonRequest (w : World) (tok : string) (validAsins : list string)
    : Request :=
  mkRequest POST (API_BASE_URL w ++ "/api/v1/amazon/products")
    [("accept", "*/*");
     ("accept-language", "en-GB,en-US;q=0.9,en;q=0.8");
     ("authorization", tok);
     ("content-type", "application/json");
     ("currencycode", "USD");
     ("currencysymbol", "$");
     ("language", "en");
     ("platform", "3")]
    (Asins validAsins).

(** The part of [getAmazonProductData] after the fetch has resolved. *)
Definition readAmazonProducts (w : World) (response : Response) : M JsVal :=
  let responseText := readBody response in
  if negb (ok response)
  then throw (Error ("Failed to fetch Amazon product data: "
                     ++ JsString.ofN (status response)))
  else
    data <- try_catch (lift (parseJSON w responseText))
              (fun _ => throw (Error "Invalid JSON response from Amazon products API")) ;;
    (* the log line reads data.products?.length *)
    lift (Js.getProp data "products") ;;;
    ret data.

(** [getAmazonProductData]: [None] is a [null] or [undefined] argument. *)
Definition getAmazonProductData (w : World) (asins : option (list string))
    : M JsVal :=
  match asins with
  | None => ret emptyAmazonProducts
  | Some [] => ret emptyAmazonProducts
  | Some asins =>
      let validAsins := filter validAsin asins in
      match validAsins with
      | [] => ret emptyAmazonProducts
      | _ =>
          try_catch
            (tok <- getGuestToken w ;;
             response <- fetch w (amazonRequest w tok validAsins) ;;
             readAmazonProducts w response)
            (fun error => throw error)
      end
  end.

Record Product : Type := mkProduct {
  id : JsVal;
  name : JsVal;
  price : Number;
  description : string;
  image : JsVal;
  category : string;
  inStock : bool;
  asin : JsVal
}.

Record ProductsResponse : Type := mkProductsResponse {
  products : list Product;
  total : N;
  page : N;
  limit : N
}.

(** [parseFloat(priceString) || 0] *)
Definition priceOf (priceString : string) : Number :=
  let n := JsNumber.parseFloat priceString in
  if JsNumber.truthy n then n else JsNumber.zero.

Definition placeholderName (index : N) : string :=
  "Product " ++ JsString.ofN (index + 1).

Definition placeholderImage (index : N) : string :=
  "https://images.pexels.com/photos/" ++ JsString.ofN (3825572 + index)
  ++ "/pexels-photo-" ++ JsString.ofN (3825572 + index)
  ++ ".jpeg?auto=compress&cs=tinysrgb&w=800".

(** The callback of the [map] in [convertAmazonDataToProducts]. *)
Definition convertProduct (amazonProduct : JsVal) (index : N) : Result Product :=
  match Js.getProp amazonProduct "product_price" with
  | Throw e => Throw e
  | Ok product_price =>
      match (if Js.truthy product_price
             then Js.stringMethod product_price
                    (fun s => JsString.replace s "$" "")
             else Ok "0") with
      | Throw e => Throw e
      | Ok priceString =>
          let product_availability :=
            Js.getPropOpt amazonProduct "product_availability" in
          match (if Js.truthy product_availability
                 then Js.stringMethod product_availability
                        (fun s => negb (JsString.includes
                                          (JsString.toLowerCase s) "out of stock"))
                 else Ok true) with
          | Throw e => Throw e
          | Ok stock =>
              Ok (mkProduct
                    (Js.getPropOpt amazonProduct "asin")
                    (Js.or (Js.getPropOpt amazonProduct "product_title")
                       (JStr (placeholderName index)))
                    (priceOf priceString)
                    "No description available"
                    (Js.or (Js.getPropOpt amazonProduct "product_photo")
                       (JStr (placeholderImage index)))
                    "General"
                    stock
                    (Js.getPropOpt amazonProduct "asin"))
          end
      end
  end.

(** [items.map((amazonProduct, index) => ...)], from position [index] on. *)
Fixpoint convertFrom (index : N) (items : list JsVal) : Result (list Product) :=
  match items with
  | [] => Ok []
  | amazonProduct :: rest =>
      match convertProduct amazonProduct index with
      | Throw e => Throw e
      | Ok p =>
          match convertFrom (index + 1) rest with
          | Throw e => Throw e
          | Ok ps => Ok (p :: ps)
          end
      end
  end.

(** [convertAmazonDataToProducts]: the argument is declared an array; the
    function reads its [length] and calls its [map]. *)
Definition convertAmazonDataToProducts (amazonProducts : JsVal)
    : Result (list Product) :=
  match amazonProducts with
  | JArr items => convertFrom 0 items
  | _ => Throw TypeError
  end.

Definition responseOf (ps : list Product) : ProductsResponse :=
  mkProductsResponse ps (N.of_nat (List.length ps)) 1 20.

(** [getProductsDirect] *)
Definition getProductsDirect (w : World) : M ProductsResponse :=
  let hardcodedAsins := ["B08N5WRWNW"; "B08N5WRWNW"; "B08N5WRWNW"] in
  try_catch
    (amazonProductsResponse <- getAmazonProductData w (Some hardcodedAsins) ;;
     listed <- lift (Js.getProp amazonProductsResponse "products") ;;
     ps <- lift (convertAmazonDataToProducts (Js.or listed (JArr []))) ;;
     ret (responseOf ps))
    (fun error => throw error).

(** [sellerDataResponse.data[0]?.amazon_data?.products] *)
Definition sellerProducts (sellerDataResponse : JsVal) : Result JsVal :=
  match Js.getProp sellerDataResponse "data" with
  | Throw e => Throw e
  | Ok d =>
      match Js.first d with
      | Throw e => Throw e
      | Ok sellerInfo =>
          Ok (Js.getPropOpt (Js.getPropOpt sellerInfo "amazon_data") "products")
      end
  end.

(** [getProducts] *)
Definition getProducts (w : World) : M ProductsResponse :=
  try_catch
    (sellerDataResponse <- getSellerData w None ;;
     amazonProducts <- lift (sellerProducts sellerDataResponse) ;;
     if negb (Js.truthy amazonProducts)
        || Js.isZero (Js.getPropOpt amazonProducts "length")
     then ret (mkProductsResponse [] 0 1 20)
     else
       ps <- lift (convertAmazonDataToProducts amazonProducts) ;;
       ret (responseOf ps))
    (fun error => throw error).

(** ** Vocabulary of the properties *)

(** A field of [interface AmazonProduct]: a string when it is present. *)
Definition stringOrAbsent (v : JsVal) : bool :=
  match v with
  | JUndefined | JNull | JStr _ => true
  | _ => false
  end.

(** A raw product as [interface AmazonProduct] declares it: an object whose
    fields read by the normaliser are strings or missing. *)
Definition isAmazonProduct (p : JsVal) : bool :=
  match p with
  | JObj props =>
      stringOrAbsent (Js.lookup "asin" props)
      && stringOrAbsent (Js.lookup "product_title" props)
      && stringOrAbsent (Js.lookup "product_price" props)
      && stringOrAbsent (Js.lookup "product_photo" props)
      && stringOrAbsent (Js.lookup "product_availability" props)
  | _ => false
  end.

(** A field that is missing, [null] or the empty string. *)
Definition missing (v : JsVal) : Prop :=
  v = JUndefined \/ v = JNull \/ v = JStr "".

Fixpoint allDigits (s : string) : bool :=
  match s with
  | EmptyString => true
  | String c s' => JsNumber.isDigit c && allDigits s'
  end.

(** The integer a run of decimal digits denotes, continuing from [acc]. *)
Fixpoint digitsValueFrom (acc : Z) (s : string) : Z :=
  match s with
  | EmptyString => acc
  | String c s' => digitsValueFrom (10 * acc + JsNumber.digitValue c) s'
  end.

Definition digitsValue (s : string) : Z := digitsValueFrom 0 s.


(** The availability text holds "out of stock", letter case ignored. *)
Definition saysOutOfStock (v : JsVal) : Prop :=
  exists s before after,
    v = JStr s /\ JsString.toLowerCase s = before ++ "out of stock" ++ after.

(** The token exchange gave no usable token: the status is not 2xx, or the
    body is not JSON, or the parsed body has no truthy
    [data.token.accessToken]. *)
Definition exchangeUnusable (w : World) (response : Response) : Prop :=
  ok response = false
  \/ parseJSON w (readBody response) = Throw SyntaxError
  \/ exists data,
       parseJSON w (readBody response) = Ok data
       /\ match accessTokenOf data with
          | Ok accessToken => Js.truthy accessToken = false
          | Throw _ => True
          end.

(** The thrown value carries the HTTP status and the raw body: an [Error]
    has its message and nothing else to carry them in. *)
Definition carriesStatusAndBody (e : Thrown) (response : Response) : Prop :=
  exists message,
    e = Error message
    /\ JsString.includes message (JsString.ofN (status response)) = true
    /\ JsString.includes message (readBody response) = true.

(** The [data] field of a parsed seller response is missing, not an array,
    or an empty array. *)
Definition sellerDataMissing (data : JsVal) : Prop :=
  match Js.getProp data "data" with
  | Ok d => sellerDataInvalid d = true
  | Throw _ => True
  end.

(** The IP-echo call failed: the fetch was rejected, or the status is not
    2xx, or the body is not readable as a JSON value with properties. *)
Definition ipCallFailed (w : World) (st : State) : bool :=
  match network w (requests st) ipRequest with
  | Rejected _ => true
  | Resolved r =>
      negb (ok r)
      || match json w r with
         | Ok data => Js.nullish data
         | Throw _ => true
         end
  end.

(** The Cache API is there and its operations do not reject. *)
Definition cacheOperational (st : State) : bool :=
  match caches st with
  | Caches true _ => true
  | _ => false
  end.

Definition isCatalogRequest (w : World) (req : Request) : Prop :=
  url req = API_BASE_URL w ++ "/api/v1/amazon/products".

(** The request carries no list of product identifiers. *)
Definition carriesNoAsins (req : Request) : Prop :=
  forall asins, body req <> Asins asins.

(** From [st] to [st'] only requests without product identifiers were sent. *)
Definition sentNoAsins (st st' : State) : Prop :=
  exists sent,
    requests st' = (requests st ++ sent)%list /\ Forall carriesNoAsins sent.

(** ** Example worlds

    Servers that answer by the address of the request, with the bodies below,
    and a JSON parser that knows these bodies. *)

Module Demo.

Definition quote : string := String (ascii_of_nat 34) EmptyString.

Definition q (s : string) : string := quote ++ s ++ quote.

Definition ipText : string := "{" ++ q "ip" ++ ":" ++ q "203.0.113.7" ++ "}".
Definition ipValue : JsVal := JObj [("ip", JStr "203.0.113.7")].

Definition tokenText : string :=
  "{" ++ q "data" ++ ":{" ++ q "token" ++ ":{" ++ q "accessToken" ++ ":"
  ++ q "guest-abc" ++ "}}}".
Definition tokenValue : JsVal :=
  JObj [("data", JObj [("token", JObj [("accessToken", JStr "guest-abc")])])].

(** A token response without the access token. *)
Definition tokenlessText : string :=
  "{" ++ q "data" ++ ":{" ++ q "sid" ++ ":" ++ q "s1" ++ "}}".
Definition tokenlessValue : JsVal := JObj [("data", JObj [("sid", JStr "s1")])].

Definition productText : string :=
  "{" ++ q "asin" ++ ":" ++ q "B071DR7GLW" ++ "," ++ q "product_title" ++ ":"
  ++ q "Laundry Wash" ++ "," ++ q "product_price" ++ ":" ++ q "$19.99" ++ ","
  ++ q "product_availability" ++ ":" ++ q "In Stock" ++ "}".
Definition productValue : JsVal :=
  JObj [("asin", JStr "B071DR7GLW"); ("product_title", JStr "Laundry Wash");
        ("product_price", JStr "$19.99");
        ("product_availability", JStr "In Stock")].

Definition sellerTextWith (productsText : string) : string :=
  "{" ++ q "data" ++ ":[{" ++ q "brand_data" ++ ":{" ++ q "official_brand_name"
  ++ ":" ++ q "Truly Free" ++ "}," ++ q "amazon_data" ++ ":{" ++ q "products"
  ++ ":[" ++ productsText ++ "]}}]}".
Definition sellerValueWith (items : list JsVal) : JsVal :=
  JObj [("data",
         JArr [JObj [("brand_data",
                      JObj [("official_brand_name", JStr "Truly Free")]);
                     ("amazon_data", JObj [("products", JArr items)])]])].

(** A seller with one product, and a seller with none. *)
Definition sellerText : string := sellerTextWith productText.
Definition sellerValue : JsVal := sellerValueWith [productValue].
Definition emptySellerText : string := sellerTextWith "".
Definition emptySellerValue : JsVal := sellerValueWith [].

(** A seller response with an empty [data] array. *)
Definition noSellerText : string := "{" ++ q "data" ++ ":[]}".
Definition noSellerValue : JsVal := JObj [("data", JArr [])].

(** What the catalog endpoint would answer for the product. *)
Definition catalogText : string :=
  "{" ++ q "products" ++ ":[{" ++ q "asin" ++ ":" ++ q "B071DR7GLW" ++ ","
  ++ q "product_title" ++ ":" ++ q "Catalog Title" ++ "," ++ q "product_price"
  ++ ":" ++ q "$29.99" ++ "}]," ++ q "total" ++ ":1}".
Definition catalogValue : JsVal :=
  JObj [("products",
         JArr [JObj [("asin", JStr "B071DR7GLW");
                     ("product_title", JStr "Catalog Title");
                     ("product_price", JStr "$29.99")]]);
        ("total", JNum (JsNumber.ofN 1))].

Definition parse (t : string) : option JsVal :=
  option_map snd
    (find (fun entry => String.eqb t (fst entry))
       [(ipText, ipValue); (tokenText, tokenValue);
        (tokenlessText, tokenlessValue); (sellerText, sellerValue);
        (emptySellerText, emptySellerValue); (noSellerText, noSellerValue);
        (catalogText, catalogValue)]).

Definition answer (status : N) (statusText body : string) : FetchOutcome :=
  Resolved (mkResponse status statusText (Ok body)).

Definition base : string := "https://api.trulyfreehome.dev".

Definition world (ip exchange seller catalog : FetchOutcome) : World :=
  mkWorld None parse
    (fun n => 1700000000000 + Z.of_nat n)
    (fun _ => "3f2b8c1e-5d4a-4c6b-9e7f-0a1b2c3d4e5f")
    (fun _ req =>
       if String.eqb (url req) IP_API_URL then ip
       else if String.eqb (url req) (base ++ "/v1/guest/signIn") then exchange
       else if String.eqb (url req) (base ++ "/api/v1/amazon/products")
            then catalog
            else seller).

(** Every server answers well; the seller has one product. *)
Definition healthy : World :=
  world (answer 200 "OK" ipText) (answer 200 "OK" tokenText)
    (answer 200 "OK" sellerText) (answer 200 "OK" catalogText).


(** The seller endpoint answers with an empty [data] array. *)
Definition noSeller : World :=
  world (answer 200 "OK" ipText) (answer 200 "OK" tokenText)
    (answer 200 "OK" noSellerText) (answer 200 "OK" catalogText).

(** The token endpoint answers 500. *)
Definition exchangeDown : World :=
  world (answer 200 "OK" ipText)
    (answer 500 "Internal Server Error" "upstream exploded")
    (answer 200 "OK" sellerText) (answer 200 "OK" catalogText).

(** The IP-echo service cannot be reached. *)
Definition ipDown : World :=
  world (Rejected TypeError) (answer 200 "OK" tokenText)
    (answer 200 "OK" sellerText) (answer 200 "OK" catalogText).

(** An edge environment with an empty cache, nothing sent yet. *)
Definition fresh : State := mkState (Caches true None) [] 0 0.

(** An environment without the Cache API. *)
Definition cacheless : State := mkState CachesUndefined [] 0 0.

End Demo.

(** ** The rest of src/lib/api.ts, and the pages that call it *)

(** [v === s] for a string [s]. *)
Definition strictEqualsString (v : JsVal) (s : string) : bool :=
  match v with
  | JStr t => String.eqb t s
  | _ => false
  end.

(** [p => p.id === id || p.asin === id] *)
Definition hasIdOrAsin (productId : string) (p : Product) : bool :=
  strictEqualsString (id p) productId || strictEqualsString (asin p) productId.

(** [getProduct]; the parameter [id] of the source is [productId] here. *)
Definition getProduct (w : World) (productId : string) : M Product :=
  productsResponse <- getProducts w ;;
  match find (hasIdOrAsin productId) (products productsResponse) with
  | Some product => ret product
  | None => throw (Error "Product not found")
  end.

(** What a page hands to the renderer: the error screen with its message,
    the product grid, or the detail of one product. *)
Inductive View : Type :=
| ErrorView (message : string)
| ProductListing (items : list Product)
| ProductDetail (product : Product).

(** [notFound()] of next/navigation: it throws the NEXT_NOT_FOUND error that
    the framework turns into the not-found page. *)
Definition notFound {A : Type} : M A := throw (Rejection "NEXT_NOT_FOUND").

(** [HomePage] of src/app/page.tsx, up to the choice of what is rendered:
    [products] starts as the empty array and [error] as [null]. *)
Definition HomePage (w : World) : M View :=
  outcome <- try_catch
               (response <- getProducts w ;;
                ret (products response, None))
               (fun _ =>
                  ret ([], Some "Failed to load products. Please try again later.")) ;;
  match outcome with
  | (_, Some error) => ret (ErrorView error)
  | (listed, None) => ret (ProductListing listed)
  end.

(** [ProductPage] of the product detail route, up to the choice of what is
    rendered: [product] and [error] start as [null]. *)
Definition ProductPage (w : World) (productId : string) : M View :=
  outcome <- try_catch
               (productsResponse <- getProducts w ;;
                match find (hasIdOrAsin productId) (products productsResponse) with
                | Some product => ret (Some product, None)
                | None => notFound
                end)
               (fun _ =>
                  ret (None,
                       Some "Failed to load product details. Please try again later.")) ;;
  match outcome with
  | (_, Some error) => ret (ErrorView error)
  | (None, None) => notFound
  | (Some product, None) => ret (ProductDetail product)
  end.

(** The state after one more clock read. *)
Definition afterClockRead (st : State) : State :=
  mkState (caches st) (requests st) (S (clock_reads st)) (uuids_drawn st).

(** The state after one more request. *)
Definition afterRequest (req : Request) (st : State) : State :=
  mkState (caches st) (requests st ++ [req]) (clock_reads st) (uuids_drawn st).

(** The exchange response holds the usable token [tok]: status 2xx, a JSON
    body, and a non-empty string under [data.token.accessToken]. *)
Definition exchangeGives (w : World) (response : Response) (tok : string) : Prop :=
  ok response = true
  /\ tok <> EmptyString
  /\ exists data,
       parseJSON w (readBody response) = Ok data
       /\ accessTokenOf data = Ok (JStr tok).

Definition isString (v : JsVal) : bool :=
  match v with
  | JStr _ => true
  | _ => false
  end.

(** A raw product on which the callback of the normaliser throws: [null] or
    [undefined], or a truthy price or availability that is not a string. *)
Definition unreadableProduct (p : JsVal) : bool :=
  Js.nullish p
  || (Js.truthy (Js.getPropOpt p "product_price")
      && negb (isString (Js.getPropOpt p "product_price")))
  || (Js.truthy (Js.getPropOpt p "product_availability")
      && negb (isString (Js.getPropOpt p "product_availability"))).

(** A first seller entry that passes the log lines of [getSellerData]: it
    has [brand_data], and [amazon_data.products] is an array without [null]. *)
Definition loggableSeller (sellerInfo : JsVal) : bool :=
  negb (Js.nullish (Js.getPropOpt sellerInfo "brand_data"))
  && match Js.getPropOpt (Js.getPropOpt sellerInfo "amazon_data") "products" with
     | JArr items => forallb (fun p => negb (Js.nullish p)) items
     | _ => false
     end.

(** More example worlds: the servers of [Demo], and a parser that also knows
    the bodies below. *)
Module Scenario.

(** A seller entry without [brand_data]. *)
Definition anonymousSellerText : string :=
  "{" ++ Demo.q "data" ++ ":[{" ++ Demo.q "amazon_data" ++ ":{"
  ++ Demo.q "products" ++ ":[]}}]}".
Definition anonymousSellerValue : JsVal :=
  JObj [("data", JArr [JObj [("amazon_data", JObj [("products", JArr [])])]])].

(** A seller entry with [brand_data] whose [amazon_data] lists no products
    at all. *)
Definition listlessSellerText : string :=
  "{" ++ Demo.q "data" ++ ":[{" ++ Demo.q "brand_data" ++ ":{"
  ++ Demo.q "official_brand_name" ++ ":" ++ Demo.q "Truly Free" ++ "},"
  ++ Demo.q "amazon_data" ++ ":{" ++ Demo.q "brand_name" ++ ":"
  ++ Demo.q "Truly Free" ++ "}}]}".
Definition listlessSellerValue : JsVal :=
  JObj [("data",
         JArr [JObj [("brand_data",
                      JObj [("official_brand_name", JStr "Truly Free")]);
                     ("amazon_data",
                      JObj [("brand_name", JStr "Truly Free")])]])].

(** A catalog answer without [products]. *)
Definition bareCatalogText : string := "{" ++ Demo.q "total" ++ ":0}".
Definition bareCatalogValue : JsVal := JObj [("total", JNum JsNumber.zero)].

(** A token answer whose access token is a number. *)
Definition numericTokenText : string :=
  "{" ++ Demo.q "data" ++ ":{" ++ Demo.q "token" ++ ":{" ++ Demo.q "accessToken"
  ++ ":42}}}".
Definition numericTokenValue : JsVal :=
  JObj [("data",
         JObj [("token", JObj [("accessToken", JNum (JsNumber.ofN 42))])])].

Definition parse (t : string) : option JsVal :=
  match Demo.parse t with
  | Some v => Some v
  | None =>
      option_map snd
        (find (fun entry => String.eqb t (fst entry))
           [(anonymousSellerText, anonymousSellerValue);
            (listlessSellerText, listlessSellerValue);
            (bareCatalogText, bareCatalogValue);
            (numericTokenText, numericTokenValue)])
  end.

Definition world (ip exchange seller catalog : FetchOutcome) : World :=
  let w := Demo.world ip exchange seller catalog in
  mkWorld (NEXT_PUBLIC_API_BASE_URL w) parse (Date_now w) (randomUUID w)
    (network w).

Definition ok200 (body : string) : FetchOutcome := Demo.answer 200 "OK" body.

(** The seller endpoint answers 503 with a page that is no JSON. *)
Definition sellerDown : World :=
  world (ok200 Demo.ipText) (ok200 Demo.tokenText)
    (Demo.answer 503 "Service Unavailable" "<html>busy</html>")
    (ok200 Demo.catalogText).

(** The seller entry has no [brand_data]. *)
Definition anonymousSeller : World :=
  world (ok200 Demo.ipText) (ok200 Demo.tokenText) (ok200 anonymousSellerText)
    (ok200 Demo.catalogText).

(** The seller entry lists no products at all. *)
Definition listlessSeller : World :=
  world (ok200 Demo.ipText) (ok200 Demo.tokenText) (ok200 listlessSellerText)
    (ok200 Demo.catalogText).

(** The catalog endpoint answers 500. *)
Definition catalogDown : World :=
  world (ok200 Demo.ipText) (ok200 Demo.tokenText) (ok200 Demo.sellerText)
    (Demo.answer 500 "Internal Server Error" "boom").

(** The catalog endpoint answers without [products]. *)
Definition bareCatalog : World :=
  world (ok200 Demo.ipText) (ok200 Demo.tokenText) (ok200 Demo.sellerText)
    (ok200 bareCatalogText).

(** The token endpoint answers with a number for the access token. *)
Definition numericToken : World :=
  world (ok200 Demo.ipText) (ok200 numericTokenText) (ok200 Demo.sellerText)
    (ok200 Demo.catalogText).

(** The servers of [Demo.healthy], with a clock that reads 8639999999999999
    ms, the last but one millisecond a [Date] can hold. *)
Definition lateClock : World :=
  mkWorld None Demo.parse (fun _ => 8639999999999999)
    (randomUUID Demo.healthy) (network Demo.healthy).

(** A cache that rejects every operation. *)
Definition brokenCache : State := mkState (Caches false None) [] 0 0.

(** A cache holding a token that is still valid at the first clock read. *)
Definition warm : State :=
  mkState (Caches true (Some (mkCachedData "guest-warm" 1700000300000))) [] 0 0.

End Scenario.

(** ** Strings *)

Section StringFacts.

Import JsString.

Lemma startsWith_spec (s prefix : string) :
  startsWith s prefix = true <-> exists rest, s = prefix ++ rest.
Proof.
  revert s; induction prefix as [|a p IH]; intros s; simpl.
  - split; [intros _; now exists s | reflexivity].
  - destruct s as [|b s]; simpl.
    + split; [discriminate | intros [rest H]; discriminate H].
    + rewrite andb_true_iff, Ascii.eqb_eq, IH. split.
      * intros [-> [rest ->]]. now exists rest.
      * intros [rest H]. injection H as -> ->. split; [reflexivity | now exists rest].
Qed.

Lemma includes_spec (s needle : string) :
  includes s needle = true
  <-> exists before after, s = before ++ needle ++ after.
Proof.
  induction s as [|c s IH].
  - cbn [includes]. rewrite orb_false_r, startsWith_spec. split.
    + intros [rest H]. now exists EmptyString, rest.
    + intros [before [after H]]. destruct before; [now exists after|discriminate H].
  - cbn [includes]. rewrite orb_true_iff, startsWith_spec, IH. split.
    + intros [[rest H] | [before [after H]]].
      * now exists EmptyString, rest.
      * exists (String c before), after. simpl. now rewrite H.
    + intros [before [after H]]. destruct before as [|b before].
      * left. now exists after.
      * right. simpl in H. injection H as _ H. now exists before, after.
Qed.




End StringFacts.

(** ** Numbers *)

Section NumberFacts.

Import JsNumber.

Lemma isDigit_not_space (c : ascii) :
  isDigit c = true -> JsString.isWhiteSpace c = false.
Proof.
  unfold isDigit, JsString.isWhiteSpace. cbv zeta.
  generalize (JsString.code c). intros n H.
  apply andb_true_iff in H as [H1 H2].
  apply N.leb_le in H1. apply N.leb_le in H2.
  repeat rewrite orb_false_iff. repeat split.
  - apply andb_false_iff. right. apply N.leb_gt. lia.
  - apply N.eqb_neq. lia.
  - apply N.eqb_neq. lia.
Qed.

(** A digit is none of the characters the parser treats apart. *)
Lemma isDigit_plain (c : ascii) :
  isDigit c = true ->
  c <> "-"%char /\ c <> "+"%char /\ c <> "I"%char /\ c <> "."%char.
Proof.
  intros H. repeat split; intros ->; discriminate H.
Qed.

Lemma scanDigits_app (a rest : string) (acc count : Z) :
  allDigits a = true ->
  scanDigits (a ++ rest) acc count
  = scanDigits rest (digitsValueFrom acc a) (count + Z.of_nat (String.length a)).
Proof.
  revert acc count. induction a as [|c a IH]; intros acc count H.
  - simpl. now rewrite Z.add_0_r.
  - simpl in H. apply andb_true_iff in H as [Hc Ha].
    cbn [append scanDigits digitsValueFrom]. rewrite Hc, (IH _ _ Ha).
    f_equal. cbn [String.length]. lia.
Qed.

Lemma scanDigits_all (a : string) (acc count : Z) :
  allDigits a = true ->
  scanDigits a acc count
  = (digitsValueFrom acc a, count + Z.of_nat (String.length a), EmptyString).
Proof.
  revert acc count. induction a as [|c a IH]; intros acc count H.
  - simpl. now rewrite Z.add_0_r.
  - simpl in H. apply andb_true_iff in H as [Hc Ha].
    cbn [scanDigits digitsValueFrom]. rewrite Hc, (IH _ _ Ha).
    do 2 f_equal. cbn [String.length]. lia.
Qed.

Lemma digitsValueFrom_app (a b : string) (acc : Z) :
  digitsValueFrom acc (a ++ b) = digitsValueFrom (digitsValueFrom acc a) b.
Proof.
  revert acc. induction a as [|c a IH]; intros acc; simpl; [reflexivity | apply IH].
Qed.

(** The text [a.b] of two non-empty runs of digits reads as the number
    with the digits [ab] and [length b] decimals. *)
Lemma parseFloat_decimal (a b : string) :
  allDigits a = true -> allDigits b = true ->
  a <> EmptyString -> b <> EmptyString ->
  parseFloat (a ++ "." ++ b)
  = Finite (decimal (digitsValue (a ++ b)) (- Z.of_nat (String.length b))).
Proof.
  intros Ha Hb Na Nb.
  destruct a as [|c a]; [congruence|]. clear Na.
  assert (Hc : isDigit c = true) by (simpl in Ha; now apply andb_true_iff in Ha).
  destruct (isDigit_plain c Hc) as (Hm & Hp & Hi & Hd).
  unfold parseFloat.
  assert (T : JsString.trimStart (String c a ++ "." ++ b) = String c a ++ "." ++ b).
  { cbn [append JsString.trimStart]. now rewrite (isDigit_not_space c Hc). }
  rewrite T. clear T.
  assert (S1 : match String c a ++ "." ++ b with
               | String "-"%char r => (true, r)
               | String "+"%char r => (false, r)
               | _ => (false, String c a ++ "." ++ b)
               end = (false, String c a ++ "." ++ b)).
  { cbn [append].
    destruct c as [[] [] [] [] [] [] [] []]; try reflexivity; congruence. }
  rewrite S1. clear S1.
  assert (I : JsString.startsWith (String c a ++ "." ++ b) "Infinity" = false).
  { cbn [append JsString.startsWith]. apply andb_false_iff. left.
    apply Ascii.eqb_neq. congruence. }
  rewrite I. clear I.
  rewrite (scanDigits_app (String c a) ("." ++ b) 0 0 Ha).
  cbn [append]. cbn [scanDigits]. change (isDigit ".") with false. cbv iota.
  rewrite (scanDigits_all b (digitsValueFrom 0 (String c a)) 0 Hb).
  assert (Lb : (0 < String.length b)%nat) by (destruct b; [congruence | simpl; lia]).
  assert (La : (0 + Z.of_nat (String.length (String c a)) =? 0) = false).
  { apply Z.eqb_neq. cbn [String.length]. lia. }
  rewrite La. cbn [andb scanExponent].
  change (String c (a ++ b)) with (String c a ++ b).
  unfold digitsValue. rewrite digitsValueFrom_app.
  do 2 f_equal.
Qed.

Lemma Qred_idempotent (x : Q) : Qred (Qred x) = Qred x.
Proof. apply Qred_complete, Qred_correct. Qed.

Lemma decimal_reduced (m e : Z) : Qred (decimal m e) = decimal m e.
Proof.
  unfold decimal. destruct (0 <=? e).
  - unfold inject_Z, Qred. cbn [Qnum Qden].
    destruct (Z.ggcd (m * 10 ^ e) 1) as [g [aa bb]] eqn:G.
    pose proof (Z.ggcd_correct_divisors (m * 10 ^ e) 1) as D.
    pose proof (Z.ggcd_gcd (m * 10 ^ e) 1) as GG.
    rewrite G in D, GG. cbn [fst snd] in *.
    rewrite Z.gcd_1_r in GG. subst g. destruct D as [D1 D2].
    cbn [snd]. rewrite D1. f_equal; [lia|]. 
    assert (bb = 1) by lia. now subst bb.
  - apply Qred_idempotent.
Qed.

(** [parseFloat(text) || 0] is the parsed number whenever that is finite:
    zero is sent to zero. *)
Lemma priceOf_finite (t : string) (m e : Z) :
  parseFloat t = Finite (decimal m e) -> priceOf t = Finite (decimal m e).
Proof.
  intros H. unfold priceOf. rewrite H. cbn [truthy].
  destruct (Qeq_bool (decimal m e) 0) eqn:Z0; [|reflexivity].
  cbn [negb]. unfold zero. f_equal.
  apply Qeq_bool_eq in Z0. apply Qred_complete in Z0.
  rewrite decimal_reduced in Z0. now rewrite Z0.
Qed.

Lemma priceOf_NaN (t : string) : parseFloat t = NaN -> priceOf t = zero.
Proof. intros H. unfold priceOf. now rewrite H. Qed.

End NumberFacts.

(** ** The normaliser *)

Section Normaliser.

Import JsString.

(** What the callback returns on a raw product of the declared type. *)
Lemma convertProduct_typed (p : JsVal) (k : N) :
  isAmazonProduct p = true ->
  exists out,
    convertProduct p k = Ok out
    /\ id out = Js.getPropOpt p "asin"
    /\ asin out = Js.getPropOpt p "asin"
    /\ name out
       = Js.or (Js.getPropOpt p "product_title") (JStr (placeholderName k))
    /\ image out
       = Js.or (Js.getPropOpt p "product_photo") (JStr (placeholderImage k))
    /\ price out
       = priceOf match Js.getPropOpt p "product_price" with
                 | JStr (String c s) => replace (String c s) "$" ""
                 | _ => "0"
                 end
    /\ inStock out
       = match Js.getPropOpt p "product_availability" with
         | JStr s => negb (includes (toLowerCase s) "out of stock")
         | _ => true
         end.
Proof.
  destruct p as [| | | | |items|props]; try discriminate.
  unfold isAmazonProduct. intros H.
  repeat (apply andb_true_iff in H as [H ?]).
  unfold convertProduct, Js.getProp. cbn [Js.nullish Js.getPropOpt].
  destruct (Js.lookup "product_price" props) as [| | | |s| |];
    try discriminate; [| |destruct s];
    (destruct (Js.lookup "product_availability" props) as [| | | |av| |];
     try discriminate; [| |destruct av]);
    cbn [Js.truthy Js.stringMethod String.eqb negb];
    eexists; repeat split.
Qed.

Lemma convertFrom_total (items : list JsVal) :
  forallb isAmazonProduct items = true ->
  forall k, exists ps, convertFrom k items = Ok ps.
Proof.
  induction items as [|p items IH]; intros H k.
  - now exists [].
  - cbn [forallb] in H. apply andb_true_iff in H as [Hp Hitems].
    destruct (convertProduct_typed p k Hp) as [out [E _]].
    destruct (IH Hitems (k + 1)%N) as [ps Eps].
    exists (out :: ps). cbn [convertFrom]. now rewrite E, Eps.
Qed.

(** Position [i] of the result is the callback's result on position [i]
    of the input, called with index [i]. *)
Lemma convertFrom_nth (items : list JsVal) :
  forall k ps, convertFrom k items = Ok ps ->
  List.length ps = List.length items
  /\ forall i p, nth_error items i = Some p ->
       exists out, nth_error ps i = Some out
                   /\ convertProduct p (k + N.of_nat i) = Ok out.
Proof.
  induction items as [|x items IH]; intros k ps H.
  - injection H as <-. split; [reflexivity|]. intros [|i] p Hp; discriminate Hp.
  - cbn [convertFrom] in H.
    destruct (convertProduct x k) as [out|e] eqn:E; [|discriminate H].
    destruct (convertFrom (k + 1) items) as [ps'|e] eqn:E'; [|discriminate H].
    injection H as <-. destruct (IH _ _ E') as [L N]. split.
    + simpl. now rewrite L.
    + intros [|i] p Hp.
      * injection Hp as <-. exists out. split; [reflexivity|].
        now rewrite N.add_0_r.
      * destruct (N i p Hp) as [o [H1 H2]]. exists o. split; [exact H1|].
        rewrite <- H2. f_equal. lia.
Qed.

Lemma typed_at (items : list JsVal) (i : nat) (p : JsVal) :
  forallb isAmazonProduct items = true ->
  nth_error items i = Some p -> isAmazonProduct p = true.
Proof.
  intros H Hp. rewrite forallb_forall in H.
  apply H. eapply nth_error_In. exact Hp.
Qed.

(** The normaliser succeeds on typed input, and each output is the
    callback's output at the same position. *)
Lemma convert_typed (items : list JsVal) :
  forallb isAmazonProduct items = true ->
  exists ps,
    convertAmazonDataToProducts (JArr items) = Ok ps
    /\ List.length ps = List.length items
    /\ forall i p out,
         nth_error items i = Some p -> nth_error ps i = Some out ->
         isAmazonProduct p = true /\ convertProduct p (N.of_nat i) = Ok out.
Proof.
  intros H. destruct (convertFrom_total items H 0%N) as [ps E].
  exists ps. destruct (convertFrom_nth items _ _ E) as [L N].
  split; [exact E|]. split; [exact L|].
  intros i p out Hp Hout. split.
  - eapply typed_at; eassumption.
  - destruct (N i p Hp) as [o [H2 H3]].
    rewrite Hout in H2. injection H2 as <-. exact H3.
Qed.

Lemma or_missing (v d : JsVal) : missing v -> Js.or v d = d.
Proof. intros [-> | [-> | ->]]; reflexivity. Qed.

End Normaliser.

(** On typed input every input position has its output, which is the
    callback's result there. *)
Lemma convert_typed_at (items : list JsVal) :
  forallb isAmazonProduct items = true ->
  exists ps,
    convertAmazonDataToProducts (JArr items) = Ok ps
    /\ List.length ps = List.length items
    /\ forall i p,
         nth_error items i = Some p ->
         exists out,
           nth_error ps i = Some out
           /\ isAmazonProduct p = true
           /\ convertProduct p (N.of_nat i) = Ok out.
Proof.
  intros T. destruct (convert_typed items T) as [ps [E [L At]]].
  exists ps. split; [exact E|]. split; [exact L|]. intros i p Hp.
  assert (Hi : (i < List.length ps)%nat).
  { rewrite L. apply nth_error_Some. congruence. }
  destruct (nth_error ps i) as [out|] eqn:Hout;
    [|apply nth_error_Some in Hi; congruence].
  exists out. split; [reflexivity|]. exact (At i p out Hp Hout).
Qed.

(** C4.  The normaliser never fails on raw products of the declared type:
    it returns a list of the same length, and at every input position the
    output obeys these rules.  A price text "$a.b" (digits a, digits b),
    such as "$12.34", gives the number a.b; a missing or empty price, and a
    price text in which [parseFloat] finds no number, give price 0; a
    missing title gives "Product N" with N the 1-based position; a missing
    photo gives the placeholder address built from 3825572 plus the 0-based
    position. *)
Theorem normalizer_total_with_defaults (items : list JsVal) :
  forallb isAmazonProduct items = true ->
  exists ps,
    convertAmazonDataToProducts (JArr items) = Ok ps
    /\ List.length ps = List.length items
    /\ forall i p,
         nth_error items i = Some p ->
         exists out,
           nth_error ps i = Some out
           /\ (forall a b,
                  allDigits a = true -> allDigits b = true ->
                  a <> EmptyString -> b <> EmptyString ->
                  Js.getPropOpt p "product_price" = JStr ("$" ++ a ++ "." ++ b) ->
                  price out
                  = Finite (JsNumber.decimal (digitsValue (a ++ b))
                              (- Z.of_nat (String.length b))))
           /\ (Js.getPropOpt p "product_price" = JStr "$12.34" ->
               price out = Finite (Qred (1234 # 100)))
           /\ (missing (Js.getPropOpt p "product_price") ->
               price out = Finite 0)
           /\ (forall t,
                  Js.getPropOpt p "product_price" = JStr t ->
                  JsNumber.parseFloat (JsString.replace t "$" "") = NaN ->
                  price out = Finite 0)
           /\ (missing (Js.getPropOpt p "product_title") ->
               name out = JStr ("Product " ++ JsString.ofN (N.of_nat i + 1)))
           /\ (missing (Js.getPropOpt p "product_photo") ->
               image out
               = JStr ("https://images.pexels.com/photos/"
                       ++ JsString.ofN (3825572 + N.of_nat i)
                       ++ "/pexels-photo-"
                       ++ JsString.ofN (3825572 + N.of_nat i)
                       ++ ".jpeg?auto=compress&cs=tinysrgb&w=800")).
Proof.
  intros T. destruct (convert_typed_at items T) as [ps [E [L At]]].
  exists ps. split; [exact E|]. split; [exact L|]. intros i p Hp.
  destruct (At i p Hp) as (out & Hout & Tp & C).
  exists out. split; [exact Hout|].
  destruct (convertProduct_typed p (N.of_nat i) Tp)
    as [out' [C' (_ & _ & Hname & Himage & Hprice & _)]].
  rewrite C in C'. injection C' as <-.
  repeat split.
  - intros a b Da Db Na Nb F. rewrite Hprice, F.
    change ("$" ++ a ++ "." ++ b) with (String "$" (a ++ "." ++ b)).
    cbn [JsString.replace JsString.startsWith String.length JsString.drop append].
    change (Ascii.eqb "$" "$") with true. cbn [andb].
    apply priceOf_finite. now apply parseFloat_decimal.
  - intros F. rewrite Hprice, F. reflexivity.
  - intros [F | [F | F]]; rewrite Hprice, F; reflexivity.
  - intros t F P. rewrite Hprice, F. destruct t as [|c t]; [reflexivity|].
    now apply priceOf_NaN.
  - intros F. rewrite Hname. now apply or_missing.
  - intros F. rewrite Himage. now apply or_missing.
Qed.

Lemma normalizer_total_with_defaults_witness :
  forallb isAmazonProduct
    [JObj [("asin", JStr "B071DR7GLW"); ("product_price", JStr "$12.34")];
     JObj [("asin", JStr "B08N5WRWNW"); ("product_price", JStr "")]] = true
  /\ exists ps,
       convertAmazonDataToProducts
         (JArr [JObj [("asin", JStr "B071DR7GLW"); ("product_price", JStr "$12.34")];
                JObj [("asin", JStr "B08N5WRWNW"); ("product_price", JStr "")]])
       = Ok ps
       /\ List.length ps = 2%nat
       /\ (exists first,
              nth_error ps 0 = Some first
              /\ price first = Finite (Qred (1234 # 100))
              /\ name first = JStr "Product 1")
       /\ (exists second,
              nth_error ps 1 = Some second
              /\ price second = Finite 0
              /\ image second
                 = JStr "https://images.pexels.com/photos/3825573/pexels-photo-3825573.jpeg?auto=compress&cs=tinysrgb&w=800").
Proof.
  split; [reflexivity|].
  destruct (normalizer_total_with_defaults
              [JObj [("asin", JStr "B071DR7GLW"); ("product_price", JStr "$12.34")];
               JObj [("asin", JStr "B08N5WRWNW"); ("product_price", JStr "")]]
              eq_refl) as [ps [E [L At]]].
  exists ps. split; [exact E|]. split; [exact L|]. split.
  - destruct (At 0%nat _ eq_refl) as (out & Hout & _ & P & _ & _ & T & _).
    exists out. split; [exact Hout|]. split.
    + apply P. reflexivity.
    + apply T. left. reflexivity.
  - destruct (At 1%nat _ eq_refl) as (out & Hout & _ & _ & P & _ & _ & I).
    exists out. split; [exact Hout|]. split.
    + apply P. right. right. reflexivity.
    + rewrite I; [reflexivity|]. left. reflexivity.
Defined.

(** C5.  For every list of raw products of the declared type the normaliser
    returns a list of the same length, and at every input position the
    output is out of stock exactly when the availability text holds "out of
    stock" with the letter case ignored; any other text and a missing field
    give in stock. *)
Theorem availability_maps_to_inStock (items : list JsVal) :
  forallb isAmazonProduct items = true ->
  exists ps,
    convertAmazonDataToProducts (JArr items) = Ok ps
    /\ List.length ps = List.length items
    /\ forall i p,
         nth_error items i = Some p ->
         exists out,
           nth_error ps i = Some out
           /\ (saysOutOfStock (Js.getPropOpt p "product_availability") ->
               inStock out = false)
           /\ (~ saysOutOfStock (Js.getPropOpt p "product_availability") ->
               inStock out = true).
Proof.
  intros T. destruct (convert_typed_at items T) as [ps [E [L At]]].
  exists ps. split; [exact E|]. split; [exact L|]. intros i p Hp.
  destruct (At i p Hp) as (out & Hout & Tp & C).
  exists out. split; [exact Hout|].
  destruct (convertProduct_typed p (N.of_nat i) Tp)
    as [out' [C' (_ & _ & _ & _ & _ & Hstock)]].
  rewrite C in C'. injection C' as <-.
  rewrite Hstock. unfold saysOutOfStock. split.
  - intros [s [before [after [-> Lo]]]].
    apply negb_false_iff, includes_spec. now exists before, after.
  - intros No.
    destruct (Js.getPropOpt p "product_availability") as [| | | |s| |];
      try reflexivity.
    apply negb_true_iff, not_true_is_false. intros I.
    apply includes_spec in I as [before [after Lo]].
    apply No. now exists s, before, after.
Qed.

Lemma availability_maps_to_inStock_witness :
  forallb isAmazonProduct
    [JObj [("product_availability", JStr "Temporarily out of stock")];
     JObj [("product_availability", JStr "In Stock")]] = true
  /\ exists ps,
       convertAmazonDataToProducts
         (JArr [JObj [("product_availability", JStr "Temporarily out of stock")];
                JObj [("product_availability", JStr "In Stock")]])
       = Ok ps
       /\ List.length ps = 2%nat
       /\ (exists first, nth_error ps 0 = Some first /\ inStock first = false)
       /\ (exists second, nth_error ps 1 = Some second /\ inStock second = true).
Proof.
  split; [reflexivity|].
  destruct (availability_maps_to_inStock
              [JObj [("product_availability", JStr "Temporarily out of stock")];
               JObj [("product_availability", JStr "In Stock")]]
              eq_refl) as [ps [E [L At]]].
  exists ps. split; [exact E|]. split; [exact L|]. split.
  - destruct (At 0%nat _ eq_refl) as (out & Hout & Out & _).
    exists out. split; [exact Hout|]. apply Out.
    exists "Temporarily out of stock", "temporarily ", "". now split.
  - destruct (At 1%nat _ eq_refl) as (out & Hout & _ & In).
    exists out. split; [exact Hout|]. apply In.
    intros [s [before [after [Eq Lo]]]].
    cbn in Eq. injection Eq as <-.
    assert (I : JsString.includes (JsString.toLowerCase "In Stock") "out of stock"
                = true) by (apply includes_spec; now exists before, after).
    vm_compute in I. discriminate I.
Defined.

(** C10.  For every list of raw products of the declared type, the
    normaliser returns a list of the same length, and at every position the
    [id] and the [asin] of the output are the [asin] of the input at that
    position. *)
Theorem convert_keeps_length_order_asin (items : list JsVal) :
  forallb isAmazonProduct items = true ->
  exists ps,
    convertAmazonDataToProducts (JArr items) = Ok ps
    /\ List.length ps = List.length items
    /\ forall i p,
         nth_error items i = Some p ->
         exists out,
           nth_error ps i = Some out
           /\ id out = Js.getPropOpt p "asin"
           /\ asin out = Js.getPropOpt p "asin".
Proof.
  intros T. destruct (convert_typed items T) as [ps [E [L At]]].
  exists ps. split; [exact E|]. split; [exact L|]. intros i p Hp.
  assert (Hi : (i < List.length ps)%nat).
  { rewrite L. apply nth_error_Some. congruence. }
  destruct (nth_error ps i) as [out|] eqn:Hout;
    [|apply nth_error_Some in Hi; congruence].
  exists out. split; [reflexivity|].
  destruct (At i p out Hp Hout) as [Tp C].
  destruct (convertProduct_typed p (N.of_nat i) Tp)
    as [out' [C' (Hid & Hasin & _)]].
  rewrite C in C'. injection C' as <-. now split.
Qed.

Lemma convert_keeps_length_order_asin_witness :
  forallb isAmazonProduct
    [JObj [("asin", JStr "B071DR7GLW")]; JObj [("asin", JStr "B08N5WRWNW")]] = true
  /\ exists ps,
       convertAmazonDataToProducts
         (JArr [JObj [("asin", JStr "B071DR7GLW")]; JObj [("asin", JStr "B08N5WRWNW")]])
       = Ok ps
       /\ List.length ps = 2%nat.
Proof.
  split; [reflexivity|].
  destruct (convert_keeps_length_order_asin
              [JObj [("asin", JStr "B071DR7GLW")]; JObj [("asin", JStr "B08N5WRWNW")]]
              eq_refl) as [ps [E [L _]]].
  exists ps. split; [exact E | exact L].
Defined.

(** ** The token cache *)

Ltac run := unfold bind, try_catch, ret, throw, lift in *.

Lemma cacheToken_operational (w : World) (st : State) (tok : string) :
  cacheOperational st = true ->
  cacheToken w tok st
  = (Ok tt,
     mkState
       (Caches true
          (Some (mkCachedData tok
                   (Date_now w (clock_reads st) + GUEST_TOKEN_TTL * 1000))))
       (requests st) (S (clock_reads st)) (uuids_drawn st)).
Proof.
  unfold cacheOperational, cacheToken, isCachesAPIAvailable.
  run. unfold cacheOpen, now, cachePut.
  destruct st as [[|[] entry] sent reads drawn]; cbn [caches];
    intros A; try discriminate A. reflexivity.
Qed.

(** A token comes out of the cache only if it is not the empty string. *)
Lemma getCachedToken_nonempty (w : World) (st st' : State) (tok : string) :
  getCachedToken w st = (Ok (Some tok), st') -> tok <> EmptyString.
Proof.
  unfold getCachedToken, isCachesAPIAvailable, cacheMatch. run. unfold now.
  destruct (caches st) as [|[] [entry|]]; cbn [negb]; try discriminate.
  destruct (String.eqb (token entry) "") eqn:E; cbn [negb]; [discriminate|].
  destruct (_ <? _); [|discriminate].
  destruct (toISOString (expires entry)); [|discriminate].
  intros H. injection H as <- _. now apply String.eqb_neq.
Qed.

(** C3, as the code has it.  With an operational Cache API, a token that
    is not the empty string and a store time whose expiry
    [Date.now() + 600 * 1000] ms is a time value [Date] can hold,
    [cacheToken] stores the token with that expiry, and a lookup whose clock
    read is before the expiry returns the same token.  For every cached
    entry, a lookup at or past the stored expiry returns [null] and leaves
    the entry in place.  With a Cache API that is missing or rejects its
    operations the store changes nothing and the lookup returns [null]; the
    empty string is stored and looked up as [null]; and an entry whose
    expiry is outside the range of [Date] is looked up as [null]. *)
Theorem cache_lookup_after_store_and_expiry (w : World) :
  (forall st tok,
      cacheOperational st = true -> tok <> EmptyString ->
      Z.abs (Date_now w (clock_reads st) + 600 * 1000) <= MAX_TIME_VALUE ->
      let st1 := snd (cacheToken w tok st) in
      caches st1
      = Caches true
          (Some (mkCachedData tok (Date_now w (clock_reads st) + 600 * 1000)))
      /\ (Date_now w (clock_reads st1) < Date_now w (clock_reads st) + 600 * 1000 ->
          fst (getCachedToken w st1) = Ok (Some tok)))
  /\ (forall st operational entry,
         caches st = Caches operational (Some entry) ->
         expires entry <= Date_now w (clock_reads st) ->
         fst (getCachedToken w st) = Ok None
         /\ caches (snd (getCachedToken w st)) = caches st)
  /\ (forall st tok,
         cacheOperational st = false ->
         cacheToken w tok st = (Ok tt, st)
         /\ getCachedToken w st = (Ok None, st))
  /\ (forall st,
         cacheOperational st = true ->
         let st1 := snd (cacheToken w EmptyString st) in
         caches st1
         = Caches true
             (Some (mkCachedData EmptyString
                      (Date_now w (clock_reads st) + 600 * 1000)))
         /\ getCachedToken w st1 = (Ok None, st1))
  /\ (forall st operational entry,
         caches st = Caches operational (Some entry) ->
         MAX_TIME_VALUE < Z.abs (expires entry) ->
         fst (getCachedToken w st) = Ok None
         /\ caches (snd (getCachedToken w st)) = caches st).
Proof.
  split; [|split; [|split; [|split]]].
  - intros st tok A N Range st1. subst st1.
    rewrite (cacheToken_operational w st tok A).
    cbn [snd caches clock_reads]. split; [reflexivity|]. intros Lt.
    unfold getCachedToken, isCachesAPIAvailable, cacheMatch, toISOString.
    run. unfold now.
    cbn [caches negb token expires clock_reads].
    apply String.eqb_neq in N. rewrite N. cbn [negb].
    destruct (_ <? _) eqn:E;
      [|apply Z.ltb_ge in E; unfold GUEST_TOKEN_TTL in E;
        cbn [clock_reads] in E; lia].
    destruct (Z.abs _ <=? _) eqn:E2; [reflexivity|].
    apply Z.leb_gt in E2. unfold GUEST_TOKEN_TTL in E2. lia.
  - intros st operational entry C Le.
    unfold getCachedToken, isCachesAPIAvailable, cacheMatch. run. unfold now.
    rewrite C. cbn [negb]. destruct operational; [|now split].
    destruct (String.eqb (token entry) ""); cbn [negb fst snd]; [now split|].
    apply Z.ltb_ge in Le. rewrite Le. cbn [fst snd caches]. now split.
  - intros st tok O. unfold cacheOperational in O.
    unfold cacheToken, getCachedToken, isCachesAPIAvailable, cacheOpen,
      cacheMatch.
    run. destruct st as [[|[] cached] sent reads drawn]; cbn [caches negb];
      try discriminate O; now split.
  - intros st O st1. subst st1. rewrite (cacheToken_operational w st "" O).
    cbn [snd caches]. split; [reflexivity|].
    unfold getCachedToken, isCachesAPIAvailable, cacheMatch. run.
    reflexivity.
  - intros st operational entry C Far.
    unfold getCachedToken, isCachesAPIAvailable, cacheMatch, toISOString.
    run. unfold now. rewrite C. cbn [negb]. destruct operational; [|now split].
    destruct (String.eqb (token entry) ""); cbn [negb fst snd]; [now split|].
    apply Z.leb_gt in Far. rewrite Far.
    destruct (_ <? _); cbn [fst snd caches]; now split.
Qed.

Lemma cache_lookup_after_store_and_expiry_witness :
  cacheOperational Demo.fresh = true
  /\ "guest-abc" <> EmptyString
  /\ Z.abs (Date_now Demo.healthy (clock_reads Demo.fresh) + 600 * 1000)
     <= MAX_TIME_VALUE
  /\ fst (getCachedToken Demo.healthy
            (snd (cacheToken Demo.healthy "guest-abc" Demo.fresh)))
     = Ok (Some "guest-abc")
  /\ fst (getCachedToken Demo.healthy
            (mkState (Caches true (Some (mkCachedData "guest-abc" 1700000000000)))
               [] 0 0))
     = Ok None
  /\ getCachedToken Demo.healthy Demo.cacheless = (Ok None, Demo.cacheless)
  /\ fst (getCachedToken Demo.healthy
            (mkState
               (Caches true (Some (mkCachedData "guest-abc" 9000000000000000)))
               [] 0 0))
     = Ok None.
Proof.
  destruct (cache_lookup_after_store_and_expiry Demo.healthy)
    as (Store & Expiry & Missing & _ & Far).
  assert (A : cacheOperational Demo.fresh = true) by reflexivity.
  assert (N : "guest-abc" <> EmptyString) by discriminate.
  assert (R : Z.abs (Date_now Demo.healthy (clock_reads Demo.fresh) + 600 * 1000)
              <= MAX_TIME_VALUE) by (vm_compute; discriminate).
  split; [exact A|]. split; [exact N|]. split; [exact R|]. split; [|split; [|split]].
  - apply (Store Demo.fresh "guest-abc" A N R). vm_compute. reflexivity.
  - apply (Expiry
             (mkState (Caches true (Some (mkCachedData "guest-abc" 1700000000000)))
                [] 0 0)
             true (mkCachedData "guest-abc" 1700000000000) eq_refl).
    vm_compute. discriminate.
  - apply (Missing Demo.cacheless "guest-abc"). reflexivity.
  - apply (Far
             (mkState
                (Caches true (Some (mkCachedData "guest-abc" 9000000000000000)))
                [] 0 0)
             true (mkCachedData "guest-abc" 9000000000000000) eq_refl).
    vm_compute. reflexivity.
Defined.

(** C3 as stated fails three times over.  Without the Cache API the store
    is skipped, and the lookup that follows at once returns [null]; with it,
    the empty string is stored, and the lookup that follows at once returns
    [null], not the stored token; and a token stored when the clock reads
    8639999999999999 gets an expiry [Date] cannot hold, so that the lookup
    that follows at once returns [null] as well. *)
Lemma lookup_after_store_is_null :
  (caches (snd (cacheToken Demo.healthy "guest-abc" Demo.cacheless))
   = CachesUndefined
   /\ fst (getCachedToken Demo.healthy
             (snd (cacheToken Demo.healthy "guest-abc" Demo.cacheless)))
      = Ok None)
  /\ (caches (snd (cacheToken Demo.healthy "" Demo.fresh))
      = Caches true (Some (mkCachedData "" 1700000600000))
      /\ fst (getCachedToken Demo.healthy
                (snd (cacheToken Demo.healthy "" Demo.fresh)))
         = Ok None)
  /\ (caches (snd (cacheToken Scenario.lateClock "guest-abc" Demo.fresh))
      = Caches true (Some (mkCachedData "guest-abc" 8640000000599999))
      /\ fst (getCachedToken Scenario.lateClock
                (snd (cacheToken Scenario.lateClock "guest-abc" Demo.fresh)))
         = Ok None).
Proof.
  repeat split.
Qed.

(** ** The IP resolver *)

(** C8.  [getUserIP] never throws, and when the IP-echo call fails (rejected
    fetch, status outside 2xx, body that is not readable as JSON) it returns
    the literal '152.59.204.243'. *)
Theorem getUserIP_never_throws (w : World) (st : State) :
  (exists v, fst (getUserIP w st) = Ok v)
  /\ (ipCallFailed w st = true ->
      fst (getUserIP w st) = Ok (JStr "152.59.204.243")).
Proof.
  unfold getUserIP, ipCallFailed, fetch. run.
  destruct (network w (requests st) ipRequest) as [e|r].
  - split; [eexists|intros _]; reflexivity.
  - destruct (ok r); cbn [negb orb].
    + destruct (json w r) as [data|e].
      * unfold Js.getProp. destruct (Js.nullish data); cbn [fst].
        -- split; [eexists|intros _]; reflexivity.
        -- split; [eexists; reflexivity | discriminate].
      * split; [eexists|intros _]; reflexivity.
    + split; [eexists|intros _]; reflexivity.
Qed.

Lemma getUserIP_never_throws_witness :
  ipCallFailed Demo.ipDown Demo.fresh = true
  /\ fst (getUserIP Demo.ipDown Demo.fresh) = Ok (JStr "152.59.204.243").
Proof.
  split; [reflexivity|].
  apply (getUserIP_never_throws Demo.ipDown Demo.fresh). reflexivity.
Defined.

(** ** The guest authenticator *)

(** An unusable exchange response makes the rest of [getGuestToken] throw
    before anything is cached. *)
Lemma readGuestToken_unusable (w : World) (response : Response) (st : State) :
  exchangeUnusable w response ->
  exists e, readGuestToken w response st = (Throw e, st).
Proof.
  unfold exchangeUnusable, readGuestToken. run.
  intros [U | [U | [data [P U]]]].
  - rewrite U. cbn [negb]. eexists; reflexivity.
  - destruct (ok response); cbn [negb]; [|eexists; reflexivity].
    rewrite U. eexists; reflexivity.
  - destruct (ok response); cbn [negb]; [|eexists; reflexivity].
    rewrite P. destruct (accessTokenOf data) as [accessToken|e].
    + rewrite U. cbn [negb]. eexists; reflexivity.
    + eexists; reflexivity.
Qed.

Lemma readGuestToken_nonempty (w : World) (response : Response)
    (st st' : State) (tok : string) :
  readGuestToken w response st = (Ok tok, st') -> tok <> EmptyString.
Proof.
  unfold readGuestToken. run.
  destruct (ok response); cbn [negb]; [|discriminate].
  destruct (parseJSON w (readBody response)) as [data|e]; [|discriminate].
  destruct (accessTokenOf data) as [accessToken|e]; [|discriminate].
  destruct accessToken as [| |b|n|s| |]; cbn [Js.truthy negb Js.stringMethod];
    try discriminate;
    try (destruct b; discriminate);
    try (destruct (JsNumber.truthy n); discriminate).
  destruct (String.eqb s "") eqn:E; cbn [negb]; [discriminate|].
  destruct (cacheToken w s st) as [[u|e] st1]; [|discriminate].
  intros H. injection H as <- _. now apply String.eqb_neq.
Qed.

(** C2, as the code has it.  After a cache miss, when the token exchange
    answers with a status outside 2xx, or a body that is not JSON, or a body
    without a truthy [data.token.accessToken], [getGuestToken] throws
    [Error('Failed to authenticate with API')] and caches nothing; and
    whenever [getGuestToken] returns, the token is not the empty string. *)
Theorem getGuestToken_fails_without_usable_token
    (w : World) (st st1 st2 : State) (response : Response) :
  getCachedToken w st = (Ok None, st1) ->
  exchangeFingerprint w st1 = (Ok response, st2) ->
  exchangeUnusable w response ->
  getGuestToken w st = (Throw (Error "Failed to authenticate with API"), st2)
  /\ forall st0 st' tok, getGuestToken w st0 = (Ok tok, st') -> tok <> EmptyString.
Proof.
  intros Miss Exchange U. split.
  - unfold getGuestToken. run. rewrite Miss, Exchange.
    destruct (readGuestToken_unusable w response st2 U) as [e ->]. reflexivity.
  - intros st0 st' tok. unfold getGuestToken. run.
    destruct (getCachedToken w st0) as [[[cached|]|e] sa] eqn:C; try discriminate.
    + intros H. injection H as <- _. eapply getCachedToken_nonempty. exact C.
    + destruct (exchangeFingerprint w sa) as [[r|e] sb]; [|discriminate].
      destruct (readGuestToken w r sb) as [[t|e] sc] eqn:R; [|discriminate].
      intros H. injection H as <- _. eapply readGuestToken_nonempty. exact R.
Qed.

Lemma getGuestToken_fails_without_usable_token_witness :
  getGuestToken Demo.exchangeDown Demo.fresh
  = (Throw (Error "Failed to authenticate with API"),
     snd (exchangeFingerprint Demo.exchangeDown Demo.fresh)).
Proof.
  apply (getGuestToken_fails_without_usable_token Demo.exchangeDown
           Demo.fresh Demo.fresh
           (snd (exchangeFingerprint Demo.exchangeDown Demo.fresh))
           (mkResponse 500 "Internal Server Error" (Ok "upstream exploded"))).
  - reflexivity.
  - reflexivity.
  - left. reflexivity.
Defined.

(** C2 as stated fails: the token endpoint answers 500 with the body
    "upstream exploded", and what [getGuestToken] throws holds neither the
    status nor the body. *)
Lemma auth_error_drops_status_and_body :
  exists response st2,
    exchangeFingerprint Demo.exchangeDown Demo.fresh = (Ok response, st2)
    /\ status response = 500%N
    /\ readBody response = "upstream exploded"
    /\ fst (getGuestToken Demo.exchangeDown Demo.fresh)
       = Throw (Error "Failed to authenticate with API")
    /\ ~ carriesStatusAndBody (Error "Failed to authenticate with API") response.
Proof.
  eexists; eexists. split; [reflexivity|]. repeat split.
  intros [message [E [S _]]]. injection E as <-. vm_compute in S. discriminate S.
Qed.

(** ** The seller lookup *)

Lemma sellerDataInvalid_false (d : JsVal) :
  sellerDataInvalid d = false -> exists first rest, d = JArr (first :: rest).
Proof.
  unfold sellerDataInvalid. intros H.
  apply orb_false_iff in H as [H Z0]. apply orb_false_iff in H as [_ A].
  destruct d as [| | | | |items|]; try discriminate A.
  destruct items as [|first rest]; [discriminate Z0|]. now exists first, rest.
Qed.

Lemma logSellerInfo_ok (sellerInfo : JsVal) :
  logSellerInfo sellerInfo = Ok tt ->
  exists items,
    Js.getPropOpt (Js.getPropOpt sellerInfo "amazon_data") "products" = JArr items.
Proof.
  unfold logSellerInfo.
  destruct (Js.getProp sellerInfo "brand_data") as [brand|]; [|discriminate].
  destruct (Js.getProp brand "official_brand_name"); [|discriminate].
  unfold Js.getProp at 1.
  destruct (Js.nullish (Js.getPropOpt sellerInfo "amazon_data")); [discriminate|].
  destruct (Js.getPropOpt (Js.getPropOpt sellerInfo "amazon_data") "products")
    as [| | | | |items|]; cbn; try discriminate.
  intros _. now exists items.
Qed.

(** What [readSellerData] has checked when it returns. *)
Lemma readSellerData_ok (w : World) (response : Response) (st st' : State)
    (data : JsVal) :
  readSellerData w response st = (Ok data, st') ->
  st' = st
  /\ exists first rest items,
       Js.getProp data "data" = Ok (JArr (first :: rest))
       /\ Js.getPropOpt (Js.getPropOpt first "amazon_data") "products" = JArr items.
Proof.
  unfold readSellerData. run.
  destruct (ok response); cbn [negb]; [|discriminate].
  destruct (parseJSON w (readBody response)) as [parsed|]; [|discriminate].
  destruct (Js.getProp parsed "data") as [d|] eqn:D; [|discriminate].
  destruct (sellerDataInvalid d) eqn:V; [discriminate|].
  destruct (sellerDataInvalid_false d V) as [first [rest ->]].
  cbn [Js.first].
  destruct (logSellerInfo first) as [[]|] eqn:L; [|discriminate].
  intros H. injection H as <- <-. split; [reflexivity|].
  destruct (logSellerInfo_ok first L) as [items P].
  now exists first, rest, items.
Qed.

Lemma getSellerData_ok (w : World) (requestId : option string)
    (st st' : State) (data : JsVal) :
  getSellerData w requestId st = (Ok data, st') ->
  exists first rest items,
    Js.getProp data "data" = Ok (JArr (first :: rest))
    /\ Js.getPropOpt (Js.getPropOpt first "amazon_data") "products" = JArr items.
Proof.
  unfold getSellerData. run.
  destruct (getGuestToken w st) as [[tok|] s1]; [|discriminate].
  destruct (fetch w _ s1) as [[response|] s2]; [|discriminate].
  destruct (readSellerData w response s2) as [[d|] s3] eqn:R; [|discriminate].
  intros H. injection H as <- <-.
  now destruct (readSellerData_ok w response s2 s3 d R) as [_ ?].
Qed.

(** C6.  When the parsed seller response has a [data] field that is missing,
    not an array or an empty array, [getSellerData] throws and returns no
    result; on a 2xx answer that parsed to a value with properties what it
    throws is [Error('Invalid seller data response: data array is empty or
    missing')].  Whenever it returns, [data] is a non-empty array, and the
    products read downstream are those of its first entry. *)
Theorem getSellerData_rejects_missing_sellers
    (w : World) (requestId : option string) (st st1 st2 : State)
    (tok : string) (response : Response) (data : JsVal) :
  getGuestToken w st = (Ok tok, st1) ->
  fetch w (sellerRequest w (finalRequestId requestId) tok) st1 = (Ok response, st2) ->
  parseJSON w (readBody response) = Ok data ->
  sellerDataMissing data ->
  (exists e, getSellerData w requestId st = (Throw e, st2))
  /\ (ok response = true -> Js.nullish data = false ->
      getSellerData w requestId st
      = (Throw (Error "Invalid seller data response: data array is empty or missing"),
         st2))
  /\ (forall st0 st' d,
         getSellerData w requestId st0 = (Ok d, st') ->
         exists first rest,
           Js.getProp d "data" = Ok (JArr (first :: rest))
           /\ sellerProducts d
              = Ok (Js.getPropOpt (Js.getPropOpt first "amazon_data") "products")).
Proof.
  intros Tok Fetch Parse Missing.
  assert (Run : getSellerData w requestId st = readSellerData w response st2).
  { unfold getSellerData. run. rewrite Tok, Fetch.
    destruct (readSellerData w response st2) as [[d|e] s]; reflexivity. }
  rewrite Run. unfold readSellerData, sellerDataMissing in *. run.
  rewrite Parse. repeat split.
  - destruct (ok response); cbn [negb]; [|eexists; reflexivity].
    destruct (Js.getProp data "data") as [d|e]; [|eexists; reflexivity].
    rewrite Missing. eexists; reflexivity.
  - intros -> NN. cbn [negb]. unfold Js.getProp in *. rewrite NN in *.
    now rewrite Missing.
  - intros st0 st' d H.
    destruct (getSellerData_ok w requestId st0 st' d H) as [first [rest [items [D P]]]].
    exists first, rest. split; [exact D|].
    unfold sellerProducts. rewrite D. reflexivity.
Qed.

Lemma getSellerData_rejects_missing_sellers_witness :
  sellerDataMissing Demo.noSellerValue
  /\ fst (getSellerData Demo.noSeller None Demo.fresh)
     = Throw (Error "Invalid seller data response: data array is empty or missing").
Proof.
  assert (M : sellerDataMissing Demo.noSellerValue) by reflexivity.
  split; [exact M|].
  destruct (getSellerData_rejects_missing_sellers Demo.noSeller None Demo.fresh
              (snd (getGuestToken Demo.noSeller Demo.fresh))
              (snd (getSellerData Demo.noSeller None Demo.fresh))
              "guest-abc"
              (mkResponse 200 "OK" (Ok Demo.noSellerText))
              Demo.noSellerValue
              eq_refl eq_refl eq_refl M) as [_ [E _]].
  rewrite (E eq_refl eq_refl). reflexivity.
Defined.

(** ** The requests a render sends *)

Lemma sentNoAsins_refl (st st' : State) :
  requests st' = requests st -> sentNoAsins st st'.
Proof. intros H. exists []. now rewrite app_nil_r. Qed.

Lemma sentNoAsins_trans (a b c : State) :
  sentNoAsins a b -> sentNoAsins b c -> sentNoAsins a c.
Proof.
  intros [s1 [E1 F1]] [s2 [E2 F2]]. exists (s1 ++ s2)%list. split.
  - now rewrite E2, E1, app_assoc.
  - now apply Forall_app.
Qed.

Lemma fetch_sent (w : World) (req : Request) (st : State) :
  carriesNoAsins req -> sentNoAsins st (snd (fetch w req st)).
Proof.
  intros H. exists [req]. unfold fetch.
  destruct (network w (requests st) req); cbn [snd requests];
    (split; [reflexivity | now constructor]).
Qed.

Lemma getCachedToken_sent (w : World) (st : State) :
  sentNoAsins st (snd (getCachedToken w st)).
Proof.
  apply sentNoAsins_refl.
  unfold getCachedToken, isCachesAPIAvailable, cacheMatch. run. unfold now.
  destruct (caches st) as [|[] [entry|]]; cbn [negb snd]; try reflexivity.
  destruct (String.eqb (token entry) ""); cbn [negb snd]; [reflexivity|].
  destruct (_ <? _); [|reflexivity].
  destruct (toISOString (expires entry)); reflexivity.
Qed.

Lemma cacheToken_sent (w : World) (tok : string) (st : State) :
  sentNoAsins st (snd (cacheToken w tok st)).
Proof.
  apply sentNoAsins_refl.
  unfold cacheToken, isCachesAPIAvailable, cacheOpen, cachePut. run. unfold now.
  destruct st as [[|[] entry] sent reads drawn]; reflexivity.
Qed.

Lemma getUserIP_sent (w : World) (st : State) :
  sentNoAsins st (snd (getUserIP w st)).
Proof.
  assert (F : sentNoAsins st (snd (fetch w ipRequest st)))
    by (apply fetch_sent; intros asins; discriminate).
  unfold getUserIP. run.
  destruct (fetch w ipRequest st) as [[r|e] s1]; [|exact F].
  destruct (ok r); cbn [negb]; [|exact F].
  destruct (json w r) as [data|e]; [|exact F].
  destruct (Js.getProp data "ip"); exact F.
Qed.

Lemma exchangeFingerprint_sent (w : World) (st : State) :
  sentNoAsins st (snd (exchangeFingerprint w st)).
Proof.
  pose proof (getUserIP_sent w st) as I.
  unfold exchangeFingerprint. run.
  destruct (getUserIP w st) as [[ip|e] s1]; [|exact I].
  unfold newUUID, now. cbn [clock_reads uuids_drawn caches requests].
  eapply sentNoAsins_trans; [exact I|]. cbn [snd].
  match goal with
  | |- sentNoAsins _ (snd (fetch w ?req ?s)) =>
      destruct (fetch_sent w req s) as [sent [E Fs]]
  end.
  - intros asins; discriminate.
  - exists sent. split; [exact E | exact Fs].
Qed.

Lemma readGuestToken_sent (w : World) (response : Response) (st : State) :
  sentNoAsins st (snd (readGuestToken w response st)).
Proof.
  unfold readGuestToken. run.
  destruct (ok response); cbn [negb]; [|now apply sentNoAsins_refl].
  destruct (parseJSON w (readBody response)) as [data|];
    [|now apply sentNoAsins_refl].
  destruct (accessTokenOf data) as [accessToken|]; [|now apply sentNoAsins_refl].
  destruct (Js.truthy accessToken); cbn [negb]; [|now apply sentNoAsins_refl].
  destruct (Js.stringMethod accessToken (fun s => s)) as [tok|];
    [|now apply sentNoAsins_refl].
  pose proof (cacheToken_sent w tok st) as C.
  destruct (cacheToken w tok st) as [[u|e] s1]; exact C.
Qed.

Lemma getGuestToken_sent (w : World) (st : State) :
  sentNoAsins st (snd (getGuestToken w st)).
Proof.
  pose proof (getCachedToken_sent w st) as C.
  unfold getGuestToken. run.
  destruct (getCachedToken w st) as [[[tok|]|e] s1]; cbn [snd] in *; try exact C.
  pose proof (exchangeFingerprint_sent w s1) as X.
  destruct (exchangeFingerprint w s1) as [[r|e] s2]; cbn [snd] in *;
    [|eapply sentNoAsins_trans; eassumption].
  pose proof (readGuestToken_sent w r s2) as R.
  destruct (readGuestToken w r s2) as [[t|e] s3]; cbn [snd] in *;
    (eapply sentNoAsins_trans; [exact C|];
     eapply sentNoAsins_trans; eassumption).
Qed.

Lemma readSellerData_sent (w : World) (response : Response) (st : State) :
  sentNoAsins st (snd (readSellerData w response st)).
Proof.
  apply sentNoAsins_refl. unfold readSellerData. run.
  destruct (ok response); cbn [negb]; [|reflexivity].
  destruct (parseJSON w (readBody response)) as [data|]; [|reflexivity].
  destruct (Js.getProp data "data") as [d|]; [|reflexivity].
  destruct (sellerDataInvalid d); [reflexivity|].
  destruct (Js.first d) as [sellerInfo|]; [|reflexivity].
  destruct (logSellerInfo sellerInfo); reflexivity.
Qed.

Lemma getSellerData_sent (w : World) (requestId : option string) (st : State) :
  sentNoAsins st (snd (getSellerData w requestId st)).
Proof.
  pose proof (getGuestToken_sent w st) as G.
  unfold getSellerData. run.
  destruct (getGuestToken w st) as [[tok|e] s1]; cbn [snd] in *; [|exact G].
  pose proof (fetch_sent w (sellerRequest w (finalRequestId requestId) tok) s1) as F.
  destruct (fetch w _ s1) as [[r|e] s2]; cbn [snd] in *.
  - pose proof (readSellerData_sent w r s2) as R.
    destruct (readSellerData w r s2) as [[d|e] s3]; cbn [snd] in *;
      (eapply sentNoAsins_trans; [exact G|];
       eapply sentNoAsins_trans; [apply F; intros asins; discriminate | exact R]).
  - eapply sentNoAsins_trans; [exact G|]. apply F. intros asins; discriminate.
Qed.

(** ** The catalog *)

(** What [getProducts] does once the seller lookup has returned. *)
Lemma getProducts_after_seller (w : World) (st st1 : State) (d prods : JsVal) :
  getSellerData w None st = (Ok d, st1) ->
  sellerProducts d = Ok prods ->
  getProducts w st
  = (if negb (Js.truthy prods) || Js.isZero (Js.getPropOpt prods "length")
     then Ok (mkProductsResponse [] 0 1 20)
     else match convertAmazonDataToProducts prods with
          | Ok ps => Ok (responseOf ps)
          | Throw e => Throw e
          end,
     st1).
Proof.
  intros S P. unfold getProducts. run. rewrite S, P.
  destruct (negb (Js.truthy prods) || Js.isZero (Js.getPropOpt prods "length"));
    [reflexivity|].
  destruct (convertAmazonDataToProducts prods); reflexivity.
Qed.



(** C7 fails on the code for an absent product list.  The seller endpoint
    answers 200 with one entry that has [brand_data] and an [amazon_data]
    without [products]: the answer passes the validation of [getSellerData],
    the product list [getProducts] would read is [undefined], which its own
    guard [!amazonProducts] would turn into the empty catalog, but the log
    line that reads [sellerInfo.amazon_data.products.length] throws a
    TypeError first, and [getProducts] passes it on. *)
Lemma getProducts_throws_without_product_list :
  parseJSON Scenario.listlessSeller Scenario.listlessSellerText
  = Ok Scenario.listlessSellerValue
  /\ (exists sellerInfo,
         Js.getProp Scenario.listlessSellerValue "data" = Ok (JArr [sellerInfo])
         /\ sellerDataInvalid (JArr [sellerInfo]) = false)
  /\ sellerProducts Scenario.listlessSellerValue = Ok JUndefined
  /\ fst (getSellerData Scenario.listlessSeller None Demo.fresh) = Throw TypeError
  /\ fst (getProducts Scenario.listlessSeller Demo.fresh) = Throw TypeError.
Proof.
  split; [reflexivity|]. split; [eexists; split; reflexivity|].
  repeat split.
Qed.

(** C1, as the code has it.  When the seller lookup succeeds and the first
    entry lists products, [getProducts] sends nothing after the seller
    lookup, no request of the render carries product identifiers, and what
    it returns is the normalisation of the product records of that first
    seller entry (token, seller lookup, normalise). *)
Theorem getProducts_normalizes_seller_products
    (w : World) (st st1 : State) (d : JsVal) (items : list JsVal) :
  getSellerData w None st = (Ok d, st1) ->
  sellerProducts d = Ok (JArr items) ->
  items <> [] ->
  getProducts w st
  = (match convertAmazonDataToProducts (JArr items) with
     | Ok ps => Ok (responseOf ps)
     | Throw e => Throw e
     end, st1)
  /\ sentNoAsins st (snd (getProducts w st)).
Proof.
  intros S P N.
  assert (R : getProducts w st
              = (match convertAmazonDataToProducts (JArr items) with
                 | Ok ps => Ok (responseOf ps)
                 | Throw e => Throw e
                 end, st1)).
  { rewrite (getProducts_after_seller w st st1 d (JArr items) S P).
    destruct items as [|p items]; [congruence | reflexivity]. }
  split; [exact R|]. rewrite R. cbn [snd].
  pose proof (getSellerData_sent w None st) as G. now rewrite S in G.
Qed.

Lemma getProducts_normalizes_seller_products_witness :
  fst (getProducts Demo.healthy Demo.fresh)
  = match convertAmazonDataToProducts (JArr [Demo.productValue]) with
    | Ok ps => Ok (responseOf ps)
    | Throw e => Throw e
    end.
Proof.
  assert (N : [Demo.productValue] <> []) by discriminate.
  rewrite (proj1 (getProducts_normalizes_seller_products Demo.healthy Demo.fresh
                    (snd (getSellerData Demo.healthy None Demo.fresh))
                    Demo.sellerValue [Demo.productValue]
                    eq_refl eq_refl N)).
  reflexivity.
Defined.

(** C1 as stated fails: the seller lookup succeeds with one product, and the
    render sends three requests, none of them to the product-catalog
    endpoint; the product returned has the title of the seller response, not
    the title the catalog endpoint answers with. *)
Lemma getProducts_sends_no_catalog_request :
  exists d st1,
    getSellerData Demo.healthy None Demo.fresh = (Ok d, st1)
    /\ sellerProducts d = Ok (JArr [Demo.productValue])
    /\ List.length (requests (snd (getProducts Demo.healthy Demo.fresh))) = 3%nat
    /\ (forall req,
           In req (requests (snd (getProducts Demo.healthy Demo.fresh))) ->
           ~ isCatalogRequest Demo.healthy req)
    /\ (exists ps,
           fst (getProducts Demo.healthy Demo.fresh) = Ok (responseOf ps)
           /\ map name ps = [JStr "Laundry Wash"])
    /\ (exists ps,
           convertAmazonDataToProducts (Js.getPropOpt Demo.catalogValue "products")
           = Ok ps
           /\ map name ps = [JStr "Catalog Title"]).
Proof.
  eexists; eexists. split; [reflexivity|]. split; [reflexivity|].
  split; [reflexivity|]. split; [|split].
  - intros req H. vm_compute in H.
    destruct H as [<- | [<- | [<- | []]]]; unfold isCatalogRequest;
      vm_compute; discriminate.
  - eexists. split; reflexivity.
  - eexists. split; reflexivity.
Qed.




(** ** Further properties: the token cache and the IP resolver *)

Lemma getCachedToken_cases (w : World) (st : State) :
  getCachedToken w st
  = match caches st with
    | Caches true (Some entry) =>
        if String.eqb (token entry) "" then (Ok None, st)
        else if (Date_now w (clock_reads st) <? expires entry)
                && (Z.abs (expires entry) <=? MAX_TIME_VALUE)
             then (Ok (Some (token entry)), afterClockRead st)
             else (Ok None, afterClockRead st)
    | _ => (Ok None, st)
    end.
Proof.
  unfold getCachedToken, isCachesAPIAvailable, cacheMatch, afterClockRead,
    toISOString.
  run. unfold now.
  destruct st as [[|[] [entry|]] sent reads drawn];
    cbn [negb caches requests clock_reads uuids_drawn]; try reflexivity.
  destruct (String.eqb (token entry) ""); cbn [negb]; [reflexivity|].
  destruct (_ <? _); cbn [andb]; [|reflexivity].
  destruct (Z.abs _ <=? _); reflexivity.
Qed.

Lemma cacheToken_cases (w : World) (tok : string) (st : State) :
  cacheToken w tok st
  = if cacheOperational st
    then (Ok tt,
          mkState
            (Caches true
               (Some (mkCachedData tok
                        (Date_now w (clock_reads st) + GUEST_TOKEN_TTL * 1000))))
            (requests st) (S (clock_reads st)) (uuids_drawn st))
    else (Ok tt, st).
Proof.
  destruct (cacheOperational st) eqn:O.
  - now apply cacheToken_operational.
  - unfold cacheOperational in O.
    unfold cacheToken, isCachesAPIAvailable, cacheOpen. run.
    destruct st as [[|[] entry] sent reads drawn]; try discriminate O;
      reflexivity.
Qed.

Lemma getCachedToken_keeps (w : World) (st : State) :
  caches (snd (getCachedToken w st)) = caches st
  /\ requests (snd (getCachedToken w st)) = requests st.
Proof.
  rewrite getCachedToken_cases. unfold afterClockRead.
  destruct st as [[|[] [cached|]] sent reads drawn];
    cbn [caches requests clock_reads]; try (split; reflexivity).
  destruct (String.eqb (token cached) ""); [split; reflexivity|].
  destruct (_ && _); split; reflexivity.
Qed.

Lemma cacheToken_requests (w : World) (tok : string) (st : State) :
  requests (snd (cacheToken w tok st)) = requests st.
Proof.
  rewrite cacheToken_cases. destruct (cacheOperational st); reflexivity.
Qed.

(** What [getUserIP] does in every case. *)
Lemma getUserIP_run (w : World) (st : State) :
  exists ipAddress,
    getUserIP w st = (Ok ipAddress, afterRequest ipRequest st)
    /\ (ipCallFailed w st = true -> ipAddress = JStr "152.59.204.243").
Proof.
  unfold getUserIP, ipCallFailed, fetch, afterRequest. run.
  destruct (network w (requests st) ipRequest) as [e|r];
    [eexists; split; [reflexivity | reflexivity]|].
  destruct (ok r); cbn [negb orb];
    [|eexists; split; [reflexivity | reflexivity]].
  destruct (json w r) as [data|e];
    [|eexists; split; [reflexivity | reflexivity]].
  unfold Js.getProp. destruct (Js.nullish data);
    eexists; (split; [reflexivity|]); [reflexivity | discriminate].
Qed.

(** X1.  The two cache operations never throw and send nothing; a lookup
    never changes the cached entry; and with a cache that is missing or
    rejects its operations, a lookup is a miss and a store changes nothing. *)
Theorem token_cache_never_throws (w : World) (st : State) (tok : string) :
  (exists found, fst (getCachedToken w st) = Ok found)
  /\ fst (cacheToken w tok st) = Ok tt
  /\ caches (snd (getCachedToken w st)) = caches st
  /\ requests (snd (getCachedToken w st)) = requests st
  /\ requests (snd (cacheToken w tok st)) = requests st
  /\ (cacheOperational st = false ->
      getCachedToken w st = (Ok None, st) /\ cacheToken w tok st = (Ok tt, st)).
Proof.
  rewrite getCachedToken_cases, cacheToken_cases.
  unfold cacheOperational, afterClockRead.
  destruct st as [[|[] [entry|]] sent reads drawn];
    cbn [fst snd requests caches clock_reads];
    repeat split; try (eexists; reflexivity); try discriminate;
    destruct (String.eqb (token entry) ""); try (eexists; reflexivity);
    try reflexivity;
    destruct (_ && _); try (eexists; reflexivity); reflexivity.
Qed.

Lemma token_cache_never_throws_witness :
  cacheOperational Scenario.brokenCache = false
  /\ getCachedToken Demo.healthy Scenario.brokenCache = (Ok None, Scenario.brokenCache)
  /\ cacheToken Demo.healthy "guest-abc" Scenario.brokenCache
     = (Ok tt, Scenario.brokenCache).
Proof.
  split; [reflexivity|].
  apply (token_cache_never_throws Demo.healthy Scenario.brokenCache "guest-abc").
  reflexivity.
Defined.

(** X2.  [getUserIP] sends exactly one request, the GET to the IP-echo
    service, and changes nothing else; when the answer is 2xx with a JSON
    body that has properties it returns the [ip] property of that body. *)
Theorem getUserIP_sends_one_request (w : World) (st : State) :
  snd (getUserIP w st) = afterRequest ipRequest st
  /\ forall r data,
       network w (requests st) ipRequest = Resolved r ->
       ok r = true -> json w r = Ok data -> Js.nullish data = false ->
       fst (getUserIP w st) = Ok (Js.getPropOpt data "ip").
Proof.
  unfold getUserIP, fetch, afterRequest. run. split.
  - destruct (network w (requests st) ipRequest) as [e|r]; [reflexivity|].
    destruct (ok r); cbn [negb]; [|reflexivity].
    destruct (json w r) as [data|e]; [|reflexivity].
    destruct (Js.getProp data "ip"); reflexivity.
  - intros r data N O J D. rewrite N, O. cbn [negb]. rewrite J.
    unfold Js.getProp. now rewrite D.
Qed.

Lemma getUserIP_sends_one_request_witness :
  fst (getUserIP Demo.healthy Demo.fresh) = Ok (JStr "203.0.113.7").
Proof.
  apply (proj2 (getUserIP_sends_one_request Demo.healthy Demo.fresh)
           (mkResponse 200 "OK" (Ok Demo.ipText)) Demo.ipValue);
    reflexivity.
Defined.

(** ** Further properties: the guest authenticator *)

Lemma getGuestToken_unfold (w : World) (st : State) :
  getGuestToken w st
  = match getCachedToken w st with
    | (Ok (Some tok), s1) => (Ok tok, s1)
    | (Ok None, s1) =>
        match exchangeFingerprint w s1 with
        | (Ok response, s2) =>
            match readGuestToken w response s2 with
            | (Ok tok, s3) => (Ok tok, s3)
            | (Throw _, s3) => (Throw (Error "Failed to authenticate with API"), s3)
            end
        | (Throw _, s2) => (Throw (Error "Failed to authenticate with API"), s2)
        end
    | (Throw _, s1) => (Throw (Error "Failed to authenticate with API"), s1)
    end.
Proof.
  unfold getGuestToken. run.
  destruct (getCachedToken w st) as [[[tok|]|e] s1]; try reflexivity.
  destruct (exchangeFingerprint w s1) as [[response|e] s2]; [|reflexivity].
  destruct (readGuestToken w response s2) as [[tok|e] s3]; reflexivity.
Qed.

Lemma exchangeFingerprint_unfold (w : World) (st : State) :
  exists ipAddress,
    fst (getUserIP w st) = Ok ipAddress
    /\ exchangeFingerprint w st
       = fetch w
           (tokenRequest w (randomUUID w (uuids_drawn st)) ipAddress
              (JsString.ofZ (Date_now w (clock_reads st))))
           (mkState (caches st) (requests st ++ [ipRequest])
              (S (clock_reads st)) (S (uuids_drawn st))).
Proof.
  destruct (getUserIP_run w st) as (ip & E & _).
  exists ip. split; [now rewrite E|].
  unfold exchangeFingerprint. run. rewrite E.
  unfold newUUID, now, afterRequest. reflexivity.
Qed.

Lemma exchangeFingerprint_caches (w : World) (st : State) :
  caches (snd (exchangeFingerprint w st)) = caches st.
Proof.
  destruct (exchangeFingerprint_unfold w st) as [ip [_ ->]]. unfold fetch.
  destruct (network w _ _); reflexivity.
Qed.

Lemma readGuestToken_gives (w : World) (response : Response) (tok : string)
    (st : State) :
  exchangeGives w response tok ->
  readGuestToken w response st = (Ok tok, snd (cacheToken w tok st)).
Proof.
  intros (O & N & data & P & A). unfold readGuestToken. run.
  rewrite O, P, A. cbn [negb Js.truthy Js.stringMethod].
  apply String.eqb_neq in N. rewrite N. cbn [negb].
  rewrite cacheToken_cases. destruct (cacheOperational st); reflexivity.
Qed.

Lemma readGuestToken_ok (w : World) (response : Response) (tok : string)
    (st st' : State) :
  readGuestToken w response st = (Ok tok, st') ->
  exchangeGives w response tok /\ st' = snd (cacheToken w tok st).
Proof.
  intros H. assert (G : exchangeGives w response tok).
  { revert H. unfold readGuestToken, exchangeGives. run.
    destruct (ok response); cbn [negb]; [|discriminate].
    destruct (parseJSON w (readBody response)) as [data|e]; [|discriminate].
    destruct (accessTokenOf data) as [accessToken|e] eqn:A; [|discriminate].
    destruct accessToken as [| |b|n|s| |]; cbn [Js.truthy negb Js.stringMethod];
      try discriminate;
      try (destruct b; discriminate);
      try (destruct (JsNumber.truthy n); discriminate).
    destruct (String.eqb s "") eqn:E; cbn [negb]; [discriminate|].
    destruct (cacheToken w s st) as [[u|e] s1]; [|discriminate].
    intros H. injection H as <- _. split; [reflexivity|].
    split; [now apply String.eqb_neq|]. now exists data. }
  split; [exact G|]. rewrite (readGuestToken_gives w response tok st G) in H.
  now injection H as <-.
Qed.

(** The two ways [getGuestToken] returns a token. *)
Lemma getGuestToken_ok (w : World) (st st' : State) (tok : string) :
  getGuestToken w st = (Ok tok, st') ->
  getCachedToken w st = (Ok (Some tok), st')
  \/ exists s1 response s2,
       getCachedToken w st = (Ok None, s1)
       /\ exchangeFingerprint w s1 = (Ok response, s2)
       /\ exchangeGives w response tok
       /\ st' = snd (cacheToken w tok s2).
Proof.
  rewrite getGuestToken_unfold.
  destruct (getCachedToken w st) as [[[cached|]|e] s1] eqn:C; try discriminate.
  - intros H. injection H as <- <-. now left.
  - destruct (exchangeFingerprint w s1) as [[response|e] s2] eqn:X;
      [|discriminate].
    destruct (readGuestToken w response s2) as [[t|e] s3] eqn:R; [|discriminate].
    intros H. injection H as <- <-.
    destruct (readGuestToken_ok w response t s2 s3 R) as [G ->].
    right. exists s1, response, s2.
    split; [reflexivity|]. split; [exact X|]. split; [exact G | reflexivity].
Qed.

Lemma getGuestToken_hit (w : World) (st : State) (entry : CachedData) :
  caches st = Caches true (Some entry) ->
  token entry <> EmptyString ->
  Date_now w (clock_reads st) < expires entry ->
  Z.abs (expires entry) <= MAX_TIME_VALUE ->
  getGuestToken w st = (Ok (token entry), afterClockRead st).
Proof.
  intros C N L R. rewrite getGuestToken_unfold, getCachedToken_cases, C.
  apply String.eqb_neq in N. rewrite N.
  apply Z.ltb_lt in L. apply Z.leb_le in R. now rewrite L, R.
Qed.

(** X3.  Fast path: with a cached token that is not empty and not expired,
    and whose expiry is a time value [Date] can hold, [getGuestToken]
    returns it after one clock read, sends no request and leaves the cache as
    it is; with an expiry outside that range the cached token is not used. *)
Theorem getGuestToken_cache_hit (w : World) (st : State) (entry : CachedData) :
  caches st = Caches true (Some entry) ->
  token entry <> EmptyString ->
  Date_now w (clock_reads st) < expires entry ->
  (Z.abs (expires entry) <= MAX_TIME_VALUE ->
   getGuestToken w st = (Ok (token entry), afterClockRead st))
  /\ (MAX_TIME_VALUE < Z.abs (expires entry) ->
      getCachedToken w st = (Ok None, afterClockRead st)).
Proof.
  intros C N L. split.
  - intros R. now apply getGuestToken_hit.
  - intros R. rewrite getCachedToken_cases, C.
    apply String.eqb_neq in N. rewrite N.
    apply Z.leb_gt in R. rewrite R. now rewrite andb_false_r.
Qed.

Lemma getGuestToken_cache_hit_witness :
  getGuestToken Demo.healthy Scenario.warm
  = (Ok "guest-warm", afterClockRead Scenario.warm).
Proof.
  apply (getGuestToken_cache_hit Demo.healthy Scenario.warm
           (mkCachedData "guest-warm" 1700000300000)).
  - reflexivity.
  - discriminate.
  - vm_compute. reflexivity.
  - vm_compute. discriminate.
Defined.

(** X4.  After a cache miss, when the exchange answers 2xx with a JSON body
    whose [data.token.accessToken] is a non-empty string, [getGuestToken]
    returns that string.  With an operational cache it is stored with the
    expiry of the store time plus 600 * 1000 ms; with a missing or rejecting
    cache the state stays as the exchange left it. *)
Theorem getGuestToken_exchange_success
    (w : World) (st st1 st2 : State) (response : Response) (tok : string) :
  getCachedToken w st = (Ok None, st1) ->
  exchangeFingerprint w st1 = (Ok response, st2) ->
  exchangeGives w response tok ->
  fst (getGuestToken w st) = Ok tok
  /\ (cacheOperational st2 = true ->
      snd (getGuestToken w st)
      = mkState
          (Caches true
             (Some (mkCachedData tok (Date_now w (clock_reads st2) + 600 * 1000))))
          (requests st2) (S (clock_reads st2)) (uuids_drawn st2))
  /\ (cacheOperational st2 = false -> snd (getGuestToken w st) = st2).
Proof.
  intros Miss Exchange G.
  rewrite getGuestToken_unfold, Miss, Exchange,
    (readGuestToken_gives w response tok st2 G), cacheToken_cases.
  cbn [fst snd]. repeat split.
  - intros ->. reflexivity.
  - intros ->. reflexivity.
Qed.

Lemma getGuestToken_exchange_success_witness :
  fst (getGuestToken Demo.healthy Scenario.brokenCache) = Ok "guest-abc"
  /\ caches (snd (getGuestToken Demo.healthy Scenario.brokenCache))
     = Caches false None.
Proof.
  assert (G : exchangeGives Demo.healthy
                (mkResponse 200 "OK" (Ok Demo.tokenText)) "guest-abc").
  { split; [reflexivity|]. split; [discriminate|].
    exists Demo.tokenValue. split; reflexivity. }
  destruct (getGuestToken_exchange_success Demo.healthy Scenario.brokenCache
              Scenario.brokenCache
              (snd (exchangeFingerprint Demo.healthy Scenario.brokenCache))
              (mkResponse 200 "OK" (Ok Demo.tokenText)) "guest-abc"
              eq_refl eq_refl G) as [T [_ B]].
  split; [exact T|]. rewrite (B eq_refl). reflexivity.
Defined.

(** X5.  A token is reused: when [getGuestToken] returns with an operational
    cache, the cache holds the returned token, and a further call whose
    clock read is before the stored expiry returns the same token without
    sending any request, provided that expiry is a time value [Date] can
    hold. *)
Theorem getGuestToken_reuses_cached_token
    (w : World) (st st1 : State) (tok : string) :
  getGuestToken w st = (Ok tok, st1) ->
  cacheOperational st = true ->
  exists entry,
    caches st1 = Caches true (Some entry)
    /\ token entry = tok
    /\ (Date_now w (clock_reads st1) < expires entry ->
        Z.abs (expires entry) <= MAX_TIME_VALUE ->
        getGuestToken w st1 = (Ok tok, afterClockRead st1)).
Proof.
  intros H O.
  assert (E : exists entry,
             caches st1 = Caches true (Some entry)
             /\ token entry = tok /\ tok <> EmptyString).
  { destruct (getGuestToken_ok w st st1 tok H)
      as [Hit | (s1 & response & s2 & Miss & X & G & ->)].
    - pose proof (getCachedToken_nonempty w st st1 tok Hit) as N.
      rewrite getCachedToken_cases in Hit. unfold afterClockRead in Hit.
      destruct (caches st) as [|[] [entry|]] eqn:C; try discriminate Hit.
      destruct (String.eqb (token entry) ""); [discriminate Hit|].
      destruct (_ && _); [|discriminate Hit].
      injection Hit as <- <-. exists entry. cbn [caches]. now repeat split.
    - assert (O2 : cacheOperational s2 = true).
      { destruct (getCachedToken_keeps w st) as [C _].
        rewrite Miss in C. cbn [snd] in C.
        pose proof (exchangeFingerprint_caches w s1) as C2.
        rewrite X in C2. cbn [snd] in C2.
        unfold cacheOperational in *. now rewrite C2, C. }
      rewrite cacheToken_cases, O2. cbn [snd caches].
      eexists. split; [reflexivity|]. split; [reflexivity|]. apply G. }
  destruct E as (entry & C & T & N). exists entry.
  split; [exact C|]. split; [exact T|]. intros L R. subst tok.
  now apply getGuestToken_hit.
Qed.

Lemma getGuestToken_reuses_cached_token_witness :
  getGuestToken Demo.healthy (snd (getGuestToken Demo.healthy Demo.fresh))
  = (Ok "guest-abc",
     afterClockRead (snd (getGuestToken Demo.healthy Demo.fresh))).
Proof.
  destruct (getGuestToken_reuses_cached_token Demo.healthy Demo.fresh
              (snd (getGuestToken Demo.healthy Demo.fresh)) "guest-abc"
              eq_refl eq_refl) as (entry & C & _ & Again).
  vm_compute in C. injection C as <-. apply Again.
  - vm_compute. reflexivity.
  - vm_compute. discriminate.
Defined.

(** X6.  A failed IP-echo call does not abort the authentication: after a
    cache miss the fingerprint is posted with the literal '152.59.204.243'
    as its IP address, and when the token endpoint answers that request with
    a usable token, [getGuestToken] returns it; the requests sent are the
    IP-echo GET and the token POST, in that order. *)
Theorem getGuestToken_survives_ip_failure
    (w : World) (st st1 : State) (response : Response) (tok : string) :
  getCachedToken w st = (Ok None, st1) ->
  ipCallFailed w st1 = true ->
  network w (requests st1 ++ [ipRequest])
    (tokenRequest w (randomUUID w (uuids_drawn st1)) (JStr "152.59.204.243")
       (JsString.ofZ (Date_now w (clock_reads st1))))
  = Resolved response ->
  exchangeGives w response tok ->
  fst (getGuestToken w st) = Ok tok
  /\ requests (snd (getGuestToken w st))
     = (requests st1
        ++ [ipRequest;
            tokenRequest w (randomUUID w (uuids_drawn st1))
              (JStr "152.59.204.243")
              (JsString.ofZ (Date_now w (clock_reads st1)))])%list.
Proof.
  intros Miss Failed Net G.
  destruct (exchangeFingerprint_unfold w st1) as (ip & Ip & X).
  destruct (getUserIP_run w st1) as (ip' & Run & Fallback).
  rewrite Run in Ip. cbn [fst] in Ip. injection Ip as <-.
  rewrite (Fallback Failed) in X.
  unfold fetch in X. cbn [requests caches clock_reads uuids_drawn] in X.
  rewrite Net in X.
  rewrite getGuestToken_unfold, Miss, X,
    (readGuestToken_gives w response tok _ G).
  cbn [fst snd]. split; [reflexivity|].
  rewrite cacheToken_requests. cbn [requests]. now rewrite <- app_assoc.
Qed.

Lemma getGuestToken_survives_ip_failure_witness :
  ipCallFailed Demo.ipDown Demo.fresh = true
  /\ fst (getGuestToken Demo.ipDown Demo.fresh) = Ok "guest-abc".
Proof.
  split; [reflexivity|].
  assert (G : exchangeGives Demo.ipDown
                (mkResponse 200 "OK" (Ok Demo.tokenText)) "guest-abc").
  { split; [reflexivity|]. split; [discriminate|].
    exists Demo.tokenValue. split; reflexivity. }
  apply (getGuestToken_survives_ip_failure Demo.ipDown Demo.fresh Demo.fresh
           (mkResponse 200 "OK" (Ok Demo.tokenText)) "guest-abc"
           eq_refl eq_refl eq_refl G).
Defined.

(** X7.  An access token that is not a string is refused: when the exchange
    answers 2xx with a JSON body whose [data.token.accessToken] is a number,
    a boolean, an array or an object, [getGuestToken] throws
    [Error('Failed to authenticate with API')] and caches nothing. *)
Theorem getGuestToken_rejects_non_string_token
    (w : World) (st st1 st2 : State) (response : Response)
    (data accessToken : JsVal) :
  getCachedToken w st = (Ok None, st1) ->
  exchangeFingerprint w st1 = (Ok response, st2) ->
  ok response = true ->
  parseJSON w (readBody response) = Ok data ->
  accessTokenOf data = Ok accessToken ->
  isString accessToken = false ->
  getGuestToken w st = (Throw (Error "Failed to authenticate with API"), st2).
Proof.
  intros Miss X O P A S.
  rewrite getGuestToken_unfold, Miss, X. unfold readGuestToken. run.
  rewrite O, P, A. cbn [negb].
  destruct accessToken as [| |b|n|s| |]; try discriminate S;
    cbn [Js.truthy negb Js.stringMethod]; try reflexivity.
  - destruct b; reflexivity.
  - destruct (JsNumber.truthy n); reflexivity.
Qed.

Lemma getGuestToken_rejects_non_string_token_witness :
  getGuestToken Scenario.numericToken Demo.fresh
  = (Throw (Error "Failed to authenticate with API"),
     snd (exchangeFingerprint Scenario.numericToken Demo.fresh)).
Proof.
  apply (getGuestToken_rejects_non_string_token Scenario.numericToken
           Demo.fresh Demo.fresh
           (snd (exchangeFingerprint Scenario.numericToken Demo.fresh))
           (mkResponse 200 "OK" (Ok Scenario.numericTokenText))
           Scenario.numericTokenValue (JNum (JsNumber.ofN 42)));
    reflexivity.
Defined.

(** X8.  Whatever [getGuestToken] throws is
    [Error('Failed to authenticate with API')], and that error passes
    unchanged, with nothing further sent, through [getSellerData],
    [getProducts], [getProduct], [getProductsDirect] and, when some
    identifier is not blank, [getAmazonProductData]. *)
Theorem auth_failure_propagates (w : World) (st st' : State) (e : Thrown) :
  getGuestToken w st = (Throw e, st') ->
  e = Error "Failed to authenticate with API"
  /\ (forall requestId, getSellerData w requestId st = (Throw e, st'))
  /\ getProducts w st = (Throw e, st')
  /\ (forall productId, getProduct w productId st = (Throw e, st'))
  /\ (forall asins,
         filter validAsin asins <> [] ->
         getAmazonProductData w (Some asins) st = (Throw e, st'))
  /\ getProductsDirect w st = (Throw e, st').
Proof.
  intros H.
  assert (S : forall requestId, getSellerData w requestId st = (Throw e, st')).
  { intros requestId. unfold getSellerData. run. now rewrite H. }
  assert (P : getProducts w st = (Throw e, st')).
  { unfold getProducts. run. now rewrite S. }
  assert (A : forall asins,
             filter validAsin asins <> [] ->
             getAmazonProductData w (Some asins) st = (Throw e, st')).
  { intros asins V. unfold getAmazonProductData.
    destruct asins as [|a asins]; [now elim V|].
    destruct (filter validAsin (a :: asins)); [now elim V|].
    run. now rewrite H. }
  split; [|split; [exact S|split; [exact P|split; [|split; [exact A|]]]]].
  - rewrite getGuestToken_unfold in H.
    destruct (getCachedToken w st) as [[[tok|]|e1] s1]; try discriminate H.
    + destruct (exchangeFingerprint w s1) as [[response|e2] s2].
      * destruct (readGuestToken w response s2) as [[tok|e3] s3];
          [discriminate H|]. now injection H as <- _.
      * now injection H as <- _.
    + now injection H as <- _.
  - intros productId. unfold getProduct. run. now rewrite P.
  - unfold getProductsDirect. run. rewrite A; [reflexivity|]. discriminate.
Qed.

Lemma auth_failure_propagates_witness :
  getProducts Demo.exchangeDown Demo.fresh
  = (Throw (Error "Failed to authenticate with API"),
     snd (getGuestToken Demo.exchangeDown Demo.fresh)).
Proof.
  apply (auth_failure_propagates Demo.exchangeDown Demo.fresh
           (snd (getGuestToken Demo.exchangeDown Demo.fresh))
           (Error "Failed to authenticate with API") eq_refl).
Defined.

(** ** Further properties: the seller lookup *)

Lemma getSellerData_after_token (w : World) (requestId : option string)
    (st st1 : State) (tok : string) :
  getGuestToken w st = (Ok tok, st1) ->
  getSellerData w requestId st
  = match fetch w (sellerRequest w (finalRequestId requestId) tok) st1 with
    | (Ok response, st2) => readSellerData w response st2
    | (Throw e, st2) => (Throw e, st2)
    end.
Proof.
  intros Tok. unfold getSellerData. run. rewrite Tok.
  destruct (fetch w _ st1) as [[response|e] st2]; [|reflexivity].
  destruct (readSellerData w response st2) as [[d|e] s]; reflexivity.
Qed.

Lemma logSellerInfo_loggable (sellerInfo : JsVal) :
  logSellerInfo sellerInfo
  = if loggableSeller sellerInfo then Ok tt else Throw TypeError.
Proof.
  unfold logSellerInfo, loggableSeller, Js.getProp.
  destruct (Js.nullish sellerInfo) eqn:N.
  - destruct sellerInfo; try discriminate N; reflexivity.
  - destruct (Js.nullish (Js.getPropOpt sellerInfo "brand_data"));
      cbn [negb andb]; [reflexivity|].
    destruct (Js.getPropOpt sellerInfo "amazon_data") as [| | | | | |props];
      cbn [Js.nullish Js.getPropOpt]; try reflexivity.
    destruct (Js.lookup "products" props) as [| | | | |items|];
      cbn [Js.nullish]; reflexivity.
Qed.

(** X9.  Once the token is there, [getSellerData] passes on the rejection of
    its fetch unchanged; a status outside 2xx gives
    [Error('Failed to fetch seller data: <status> <statusText>')]; a 2xx
    answer whose body is no JSON gives
    [Error('Invalid JSON response from seller data API')]. *)
Theorem getSellerData_http_failures
    (w : World) (requestId : option string) (st st1 : State) (tok : string) :
  getGuestToken w st = (Ok tok, st1) ->
  (forall e st2,
      fetch w (sellerRequest w (finalRequestId requestId) tok) st1 = (Throw e, st2) ->
      getSellerData w requestId st = (Throw e, st2))
  /\ (forall response st2,
         fetch w (sellerRequest w (finalRequestId requestId) tok) st1
         = (Ok response, st2) ->
         (ok response = false ->
          getSellerData w requestId st
          = (Throw (Error ("Failed to fetch seller data: "
                           ++ JsString.ofN (status response) ++ " "
                           ++ statusText response)), st2))
         /\ (ok response = true ->
             parseJSON w (readBody response) = Throw SyntaxError ->
             getSellerData w requestId st
             = (Throw (Error "Invalid JSON response from seller data API"), st2))).
Proof.
  intros Tok. rewrite (getSellerData_after_token w requestId st st1 tok Tok).
  split.
  - intros e st2 ->. reflexivity.
  - intros response st2 ->. unfold readSellerData. run. split.
    + intros ->. reflexivity.
    + intros -> ->. reflexivity.
Qed.

Lemma getSellerData_http_failures_witness :
  getSellerData Scenario.sellerDown None Demo.fresh
  = (Throw (Error "Failed to fetch seller data: 503 Service Unavailable"),
     snd (getSellerData Scenario.sellerDown None Demo.fresh)).
Proof.
  destruct (getSellerData_http_failures Scenario.sellerDown None Demo.fresh
              (snd (getGuestToken Scenario.sellerDown Demo.fresh)) "guest-abc"
              eq_refl) as [_ H].
  destruct (H (mkResponse 503 "Service Unavailable" (Ok "<html>busy</html>"))
              (snd (getSellerData Scenario.sellerDown None Demo.fresh))
              eq_refl) as [Down _].
  rewrite (Down eq_refl). reflexivity.
Defined.

(** X10.  On a 2xx answer whose parsed body has a non-empty [data] array,
    [getSellerData] returns the parsed body as it is when the first entry
    has [brand_data] and an [amazon_data.products] array without [null];
    otherwise its log lines throw a TypeError, which [getProducts] passes
    on, so that such a seller gives no listing at all. *)
Theorem getSellerData_depends_on_log_lines
    (w : World) (requestId : option string) (st st1 st2 : State) (tok : string)
    (response : Response) (data sellerInfo : JsVal) (others : list JsVal) :
  getGuestToken w st = (Ok tok, st1) ->
  fetch w (sellerRequest w (finalRequestId requestId) tok) st1 = (Ok response, st2) ->
  ok response = true ->
  parseJSON w (readBody response) = Ok data ->
  Js.getProp data "data" = Ok (JArr (sellerInfo :: others)) ->
  (loggableSeller sellerInfo = true ->
   getSellerData w requestId st = (Ok data, st2))
  /\ (loggableSeller sellerInfo = false ->
      getSellerData w requestId st = (Throw TypeError, st2)
      /\ (requestId = None -> getProducts w st = (Throw TypeError, st2))).
Proof.
  intros Tok Fetch O P D.
  assert (R : getSellerData w requestId st
              = if loggableSeller sellerInfo then (Ok data, st2)
                else (Throw TypeError, st2)).
  { rewrite (getSellerData_after_token w requestId st st1 tok Tok), Fetch.
    unfold readSellerData. run. rewrite O, P, D. cbn.
    rewrite logSellerInfo_loggable.
    destruct (loggableSeller sellerInfo); reflexivity. }
  rewrite R. split.
  - intros ->. reflexivity.
  - intros L. rewrite L in *. split; [reflexivity|]. intros ->.
    unfold getProducts. run. now rewrite R.
Qed.

Lemma getSellerData_depends_on_log_lines_witness :
  loggableSeller
    (JObj [("amazon_data", JObj [("products", JArr [])])]) = false
  /\ fst (getProducts Scenario.anonymousSeller Demo.fresh) = Throw TypeError.
Proof.
  split; [reflexivity|].
  destruct (getSellerData_depends_on_log_lines Scenario.anonymousSeller None
              Demo.fresh
              (snd (getGuestToken Scenario.anonymousSeller Demo.fresh))
              (snd (getSellerData Scenario.anonymousSeller None Demo.fresh))
              "guest-abc"
              (mkResponse 200 "OK" (Ok Scenario.anonymousSellerText))
              Scenario.anonymousSellerValue
              (JObj [("amazon_data", JObj [("products", JArr [])])]) []
              eq_refl eq_refl eq_refl eq_refl eq_refl) as [_ Bad].
  destruct (Bad eq_refl) as [_ P]. rewrite (P eq_refl). reflexivity.
Defined.

(** ** Further properties: the catalog fetch and the product lookup *)

Lemma getAmazonProductData_after_token (w : World) (asins : list string)
    (st st1 : State) (tok : string) :
  filter validAsin asins <> [] ->
  getGuestToken w st = (Ok tok, st1) ->
  getAmazonProductData w (Some asins) st
  = match fetch w (amazonRequest w tok (filter validAsin asins)) st1 with
    | (Ok response, st2) => readAmazonProducts w response st2
    | (Throw e, st2) => (Throw e, st2)
    end.
Proof.
  intros V Tok. unfold getAmazonProductData.
  destruct asins as [|a asins]; [now elim V|].
  destruct (filter validAsin (a :: asins)) as [|v vs]; [now elim V|].
  run. rewrite Tok.
  destruct (fetch w _ st1) as [[response|e] st2]; [|reflexivity].
  destruct (readAmazonProducts w response st2) as [[d|e] s]; reflexivity.
Qed.

(** X11.  Once the token is there and some identifier is not blank,
    [getAmazonProductData] passes on the rejection of its fetch; a status
    outside 2xx gives [Error('Failed to fetch Amazon product data:
    <status>')]; a 2xx body that is no JSON gives [Error('Invalid JSON
    response from Amazon products API')]; and any other parsed body with
    properties is returned as it is, whether it lists products or not. *)
Theorem getAmazonProductData_outcomes
    (w : World) (asins : list string) (st st1 : State) (tok : string) :
  filter validAsin asins <> [] ->
  getGuestToken w st = (Ok tok, st1) ->
  (forall e st2,
      fetch w (amazonRequest w tok (filter validAsin asins)) st1 = (Throw e, st2) ->
      getAmazonProductData w (Some asins) st = (Throw e, st2))
  /\ (forall response st2,
         fetch w (amazonRequest w tok (filter validAsin asins)) st1
         = (Ok response, st2) ->
         (ok response = false ->
          getAmazonProductData w (Some asins) st
          = (Throw (Error ("Failed to fetch Amazon product data: "
                           ++ JsString.ofN (status response))), st2))
         /\ (ok response = true ->
             parseJSON w (readBody response) = Throw SyntaxError ->
             getAmazonProductData w (Some asins) st
             = (Throw (Error "Invalid JSON response from Amazon products API"),
                st2))
         /\ (forall data,
                ok response = true ->
                parseJSON w (readBody response) = Ok data ->
                Js.nullish data = false ->
                getAmazonProductData w (Some asins) st = (Ok data, st2))).
Proof.
  intros V Tok.
  rewrite (getAmazonProductData_after_token w asins st st1 tok V Tok). split.
  - intros e st2 ->. reflexivity.
  - intros response st2 ->. unfold readAmazonProducts. run. repeat split.
    + intros ->. reflexivity.
    + intros -> ->. reflexivity.
    + intros data -> -> N. unfold Js.getProp. rewrite N. reflexivity.
Qed.

Lemma getAmazonProductData_outcomes_witness :
  filter validAsin ["B071DR7GLW"] <> []
  /\ getAmazonProductData Scenario.bareCatalog (Some ["B071DR7GLW"]) Demo.fresh
     = (Ok Scenario.bareCatalogValue,
        snd (getAmazonProductData Scenario.bareCatalog (Some ["B071DR7GLW"])
               Demo.fresh)).
Proof.
  assert (V : filter validAsin ["B071DR7GLW"] <> []) by discriminate.
  split; [exact V|].
  destruct (getAmazonProductData_outcomes Scenario.bareCatalog ["B071DR7GLW"]
              Demo.fresh (snd (getGuestToken Scenario.bareCatalog Demo.fresh))
              "guest-abc" V eq_refl) as [_ H].
  destruct (H (mkResponse 200 "OK" (Ok Scenario.bareCatalogText))
              (snd (getAmazonProductData Scenario.bareCatalog
                      (Some ["B071DR7GLW"]) Demo.fresh))
              eq_refl) as (_ & _ & Body).
  apply (Body Scenario.bareCatalogValue); reflexivity.
Defined.

(** X12.  [getProductsDirect] normalises the [products] of the catalog
    answer; an answer without [products] (missing, [null]) gives the empty
    listing [{products: [], total: 0, page: 1, limit: 20}], not an error. *)
Theorem getProductsDirect_outcomes (w : World) (st st1 : State) (answer : JsVal) :
  getAmazonProductData w (Some ["B08N5WRWNW"; "B08N5WRWNW"; "B08N5WRWNW"]) st
  = (Ok answer, st1) ->
  Js.nullish answer = false ->
  (Js.truthy (Js.getPropOpt answer "products") = false ->
   getProductsDirect w st = (Ok (mkProductsResponse [] 0 1 20), st1))
  /\ (forall items,
         Js.getPropOpt answer "products" = JArr items ->
         getProductsDirect w st
         = (match convertAmazonDataToProducts (JArr items) with
            | Ok ps => Ok (responseOf ps)
            | Throw e => Throw e
            end, st1)).
Proof.
  intros A N. unfold getProductsDirect. run. rewrite A.
  unfold Js.getProp. rewrite N. unfold Js.or. split.
  - intros ->. reflexivity.
  - intros items ->. cbn [Js.truthy].
    destruct (convertAmazonDataToProducts (JArr items)); reflexivity.
Qed.

Lemma getProductsDirect_outcomes_witness :
  fst (getProductsDirect Scenario.bareCatalog Demo.fresh)
  = Ok (mkProductsResponse [] 0 1 20).
Proof.
  rewrite (proj1 (getProductsDirect_outcomes Scenario.bareCatalog Demo.fresh
                    (snd (getProductsDirect Scenario.bareCatalog Demo.fresh))
                    Scenario.bareCatalogValue eq_refl eq_refl) eq_refl).
  reflexivity.
Defined.

(** X13.  Whatever [getProducts] or [getProductsDirect] returns, [total] is
    the number of products listed, [page] is 1 and [limit] is 20: the whole
    catalog is always one page, however many products there are. *)
Theorem products_response_shape
    (w : World) (st st' : State) (response : ProductsResponse) :
  getProducts w st = (Ok response, st')
  \/ getProductsDirect w st = (Ok response, st') ->
  total response = N.of_nat (List.length (products response))
  /\ page response = 1%N /\ limit response = 20%N.
Proof.
  intros [H | H]; revert H.
  - unfold getProducts. run.
    destruct (getSellerData w None st) as [[d|e] s1]; [|discriminate].
    destruct (sellerProducts d) as [prods|e]; [|discriminate].
    destruct (negb (Js.truthy prods) || Js.isZero (Js.getPropOpt prods "length")).
    + intros H. injection H as <- _. now repeat split.
    + destruct (convertAmazonDataToProducts prods) as [ps|e]; [|discriminate].
      intros H. injection H as <- _. now repeat split.
  - unfold getProductsDirect. run.
    destruct (getAmazonProductData w _ st) as [[d|e] s1]; [|discriminate].
    destruct (Js.getProp d "products") as [listed|e]; [|discriminate].
    destruct (convertAmazonDataToProducts _) as [ps|e]; [|discriminate].
    intros H. injection H as <- _. now repeat split.
Qed.

Lemma products_response_shape_witness :
  exists response,
    fst (getProducts Demo.healthy Demo.fresh) = Ok response
    /\ total response = 1%N /\ page response = 1%N /\ limit response = 20%N.
Proof.
  eexists. split; [reflexivity|].
  apply (products_response_shape Demo.healthy Demo.fresh
           (snd (getProducts Demo.healthy Demo.fresh))).
  left. reflexivity.
Defined.

Lemma hasIdOrAsin_spec (productId : string) (p : Product) :
  hasIdOrAsin productId p = true
  <-> id p = JStr productId \/ asin p = JStr productId.
Proof.
  unfold hasIdOrAsin, strictEqualsString. rewrite orb_true_iff.
  split; intros [H | H]; [left | right | left | right];
    try (rewrite H; apply String.eqb_refl).
  - destruct (id p); try discriminate H. apply String.eqb_eq in H. now subst.
  - destruct (asin p); try discriminate H. apply String.eqb_eq in H. now subst.
Qed.

(** X14.  [getProduct] passes on whatever [getProducts] throws.  When
    [getProducts] returns, it returns a listed product whose [id] or [asin]
    is the wanted string if there is one, and throws
    [Error('Product not found')] if there is none. *)
Theorem getProduct_finds_by_id_or_asin
    (w : World) (productId : string) (st st' : State) :
  (forall e, getProducts w st = (Throw e, st') ->
             getProduct w productId st = (Throw e, st'))
  /\ (forall response,
         getProducts w st = (Ok response, st') ->
         (forall p,
             getProduct w productId st = (Ok p, st') ->
             In p (products response)
             /\ (id p = JStr productId \/ asin p = JStr productId))
         /\ ((exists p,
                 In p (products response)
                 /\ (id p = JStr productId \/ asin p = JStr productId)) ->
             exists p, getProduct w productId st = (Ok p, st'))
         /\ ((forall p,
                 In p (products response) ->
                 id p <> JStr productId /\ asin p <> JStr productId) ->
             getProduct w productId st
             = (Throw (Error "Product not found"), st'))).
Proof.
  unfold getProduct. run. split.
  - intros e ->. reflexivity.
  - intros response ->.
    destruct (find (hasIdOrAsin productId) (products response)) as [found|] eqn:F.
    + apply find_some in F as [I H]. apply hasIdOrAsin_spec in H.
      repeat split.
      * injection H0 as <-. exact I.
      * injection H0 as <-. exact H.
      * intros _. now exists found.
      * intros No. destruct (No found I) as [N1 N2]. destruct H; contradiction.
    + repeat split; try discriminate.
      intros [p [I H]]. apply hasIdOrAsin_spec in H.
      pose proof (find_none _ _ F p I) as X. congruence.
Qed.

Lemma getProduct_finds_by_id_or_asin_witness :
  exists p,
    getProduct Demo.healthy "B071DR7GLW" Demo.fresh
    = (Ok p, snd (getProducts Demo.healthy Demo.fresh)).
Proof.
  destruct (getProduct_finds_by_id_or_asin Demo.healthy "B071DR7GLW" Demo.fresh
              (snd (getProducts Demo.healthy Demo.fresh))) as [_ H].
  destruct (H _ eq_refl) as (_ & Found & _).
  apply Found. eexists. split; [left; reflexivity|]. left. reflexivity.
Defined.

(** ** Further properties: the normaliser on untyped input *)

(** What the callback returns whenever it returns. *)
Lemma convertProduct_ok (p : JsVal) (k : N) (out : Product) :
  convertProduct p k = Ok out ->
  unreadableProduct p = false
  /\ out
     = mkProduct
         (Js.getPropOpt p "asin")
         (Js.or (Js.getPropOpt p "product_title") (JStr (placeholderName k)))
         (priceOf match Js.getPropOpt p "product_price" with
                  | JStr (String c s) => JsString.replace (String c s) "$" ""
                  | _ => "0"
                  end)
         "No description available"
         (Js.or (Js.getPropOpt p "product_photo") (JStr (placeholderImage k)))
         "General"
         match Js.getPropOpt p "product_availability" with
         | JStr s =>
             negb (JsString.includes (JsString.toLowerCase s) "out of stock")
         | _ => true
         end
         (Js.getPropOpt p "asin").
Proof.
  unfold convertProduct, unreadableProduct, Js.getProp.
  destruct (Js.nullish p); [discriminate|]. cbn [orb].
  destruct (Js.getPropOpt p "product_price") as [| |b|n|s| |];
    cbn [Js.truthy Js.stringMethod isString negb andb orb];
    try discriminate;
    try (destruct b; [discriminate|]);
    try (destruct (JsNumber.truthy n); [discriminate|]);
    try (destruct s as [|c s]; cbn [String.eqb negb andb orb]);
    (destruct (Js.getPropOpt p "product_availability") as [| |b'|n'|s'| |];
     cbn [Js.truthy Js.stringMethod isString negb andb orb];
     try discriminate;
     try (destruct b'; [discriminate|]);
     try (destruct (JsNumber.truthy n'); [discriminate|]);
     try (destruct s' as [|c' s']; cbn [String.eqb negb andb orb]);
     intros H; injection H as <-; split; reflexivity).
Qed.

Lemma convertProduct_throws (p : JsVal) (k : N) (e : Thrown) :
  convertProduct p k = Throw e -> e = TypeError /\ unreadableProduct p = true.
Proof.
  unfold convertProduct, unreadableProduct, Js.getProp.
  destruct (Js.nullish p); [intros H; injection H as <-; now split|].
  cbn [orb].
  destruct (Js.getPropOpt p "product_price") as [| |b|n|s| |];
    cbn [Js.truthy Js.stringMethod isString negb andb orb];
    try (intros H; injection H as <-; now split);
    try (destruct b; [intros H; injection H as <-; now split|]);
    try (destruct (JsNumber.truthy n); [intros H; injection H as <-; now split|]);
    try (destruct s as [|c s]; cbn [String.eqb negb andb orb]);
    (destruct (Js.getPropOpt p "product_availability") as [| |b'|n'|s'| |];
     cbn [Js.truthy Js.stringMethod isString negb andb orb];
     try discriminate;
     try (intros H; injection H as <-; now split);
     try (destruct b'; [intros H; injection H as <-; now split | discriminate]);
     try (destruct (JsNumber.truthy n');
          [intros H; injection H as <-; now split | discriminate]);
     try (destruct s' as [|c' s']; cbn [String.eqb negb andb orb]; discriminate)).
Qed.

Lemma convertFrom_outcome (items : list JsVal) :
  forall k,
    if existsb unreadableProduct items
    then convertFrom k items = Throw TypeError
    else exists ps, convertFrom k items = Ok ps.
Proof.
  induction items as [|p items IH]; intros k; cbn [existsb convertFrom].
  - now exists [].
  - destruct (convertProduct p k) as [out|e] eqn:C.
    + apply convertProduct_ok in C as [-> _]. cbn [orb].
      specialize (IH (k + 1)%N).
      destruct (existsb unreadableProduct items).
      * now rewrite IH.
      * destruct IH as [ps ->]. now exists (out :: ps).
    + apply convertProduct_throws in C as [-> ->]. reflexivity.
Qed.

(** X15.  The normaliser throws exactly on a value that is no array and on
    an array with an entry that is [null] or whose price or availability is
    truthy without being a string; what it throws is a TypeError, and the
    whole list is lost.  On every other array it returns. *)
Theorem convert_throws_exactly_on_unreadable (amazonProducts : JsVal) :
  (Js.isArray amazonProducts = false ->
   convertAmazonDataToProducts amazonProducts = Throw TypeError)
  /\ (forall items,
         amazonProducts = JArr items ->
         (existsb unreadableProduct items = true ->
          convertAmazonDataToProducts amazonProducts = Throw TypeError)
         /\ (existsb unreadableProduct items = false ->
             exists ps, convertAmazonDataToProducts amazonProducts = Ok ps)).
Proof.
  split.
  - destruct amazonProducts; try reflexivity. discriminate.
  - intros items ->. cbn [convertAmazonDataToProducts].
    pose proof (convertFrom_outcome items 0%N) as O.
    split; intros E; now rewrite E in O.
Qed.

Lemma convert_throws_exactly_on_unreadable_witness :
  existsb unreadableProduct
    [Demo.productValue; JObj [("product_price", JNum (JsNumber.ofN 20))]] = true
  /\ convertAmazonDataToProducts
       (JArr [Demo.productValue; JObj [("product_price", JNum (JsNumber.ofN 20))]])
     = Throw TypeError.
Proof.
  split; [reflexivity|].
  apply (proj2 (convert_throws_exactly_on_unreadable
                  (JArr [Demo.productValue;
                         JObj [("product_price", JNum (JsNumber.ofN 20))]]))
           _ eq_refl).
  reflexivity.
Defined.

Lemma convert_at (amazonProducts : JsVal) (ps : list Product) :
  convertAmazonDataToProducts amazonProducts = Ok ps ->
  exists items,
    amazonProducts = JArr items
    /\ List.length ps = List.length items
    /\ forall i out,
         nth_error ps i = Some out ->
         exists p,
           nth_error items i = Some p
           /\ convertProduct p (N.of_nat i) = Ok out.
Proof.
  destruct amazonProducts as [| | | | |items|]; try discriminate.
  cbn [convertAmazonDataToProducts]. intros C. exists items.
  destruct (convertFrom_nth items _ _ C) as [L At].
  split; [reflexivity|]. split; [exact L|]. intros i out Hout.
  assert (Hi : (i < List.length items)%nat).
  { rewrite <- L. apply nth_error_Some. congruence. }
  destruct (nth_error items i) as [p|] eqn:Hp;
    [|apply nth_error_Some in Hi; congruence].
  exists p. split; [reflexivity|].
  destruct (At i p Hp) as [o [H1 H2]].
  rewrite Hout in H1. injection H1 as <-. exact H2.
Qed.

(** X16.  Every product the normaliser returns can be rendered: its price is
    a number and never NaN, its name and its image are truthy, its
    description is 'No description available' and its category 'General'. *)
Theorem normalized_products_are_renderable
    (amazonProducts : JsVal) (ps : list Product) :
  convertAmazonDataToProducts amazonProducts = Ok ps ->
  forall out,
    In out ps ->
    price out <> NaN
    /\ Js.truthy (name out) = true
    /\ Js.truthy (image out) = true
    /\ description out = "No description available"
    /\ category out = "General".
Proof.
  intros C out I. destruct (convert_at amazonProducts ps C) as (items & _ & _ & At).
  apply In_nth_error in I as [i Hi].
  destruct (At i out Hi) as (p & _ & Cp).
  apply convertProduct_ok in Cp as [_ ->]. cbn [price name image description category].
  repeat split.
  - unfold priceOf.
    destruct (JsNumber.parseFloat _) as [|neg|q]; cbn [JsNumber.truthy];
      try discriminate.
    destruct (negb (Qeq_bool q 0)); discriminate.
  - unfold Js.or. destruct (Js.truthy (Js.getPropOpt p "product_title")) eqn:T;
      [exact T | reflexivity].
  - unfold Js.or. destruct (Js.truthy (Js.getPropOpt p "product_photo")) eqn:T;
      [exact T | reflexivity].
Qed.

Lemma normalized_products_are_renderable_witness :
  exists out,
    convertAmazonDataToProducts (JArr [JObj [("product_price", JStr "free")]])
    = Ok [out]
    /\ price out <> NaN /\ Js.truthy (name out) = true.
Proof.
  eexists. split; [reflexivity|].
  destruct (normalized_products_are_renderable
              (JArr [JObj [("product_price", JStr "free")]]) _ eq_refl
              _ (or_introl eq_refl)) as (P & N & _).
  split; [exact P | exact N].
Defined.

Lemma parseFloat_stops_at_comma (a rest : string) :
  allDigits a = true -> a <> EmptyString ->
  JsNumber.parseFloat (a ++ "," ++ rest) = Finite (inject_Z (digitsValue a)).
Proof.
  intros Ha Na. destruct a as [|c a]; [congruence|]. clear Na.
  assert (Hc : JsNumber.isDigit c = true)
    by (simpl in Ha; now apply andb_true_iff in Ha).
  destruct (isDigit_plain c Hc) as (Hm & Hp & Hi & Hd).
  unfold JsNumber.parseFloat.
  assert (T : JsString.trimStart (String c a ++ "," ++ rest)
              = String c a ++ "," ++ rest).
  { cbn [append JsString.trimStart]. now rewrite (isDigit_not_space c Hc). }
  rewrite T. clear T.
  assert (S1 : match String c a ++ "," ++ rest with
               | String "-"%char r => (true, r)
               | String "+"%char r => (false, r)
               | _ => (false, String c a ++ "," ++ rest)
               end = (false, String c a ++ "," ++ rest)).
  { cbn [append].
    destruct c as [[] [] [] [] [] [] [] []]; try reflexivity; congruence. }
  rewrite S1. clear S1.
  assert (I : JsString.startsWith (String c a ++ "," ++ rest) "Infinity" = false).
  { cbn [append JsString.startsWith]. apply andb_false_iff. left.
    apply Ascii.eqb_neq. congruence. }
  rewrite I. clear I.
  rewrite (scanDigits_app (String c a) ("," ++ rest) 0 0 Ha).
  cbn [append]. cbn [JsNumber.scanDigits].
  change (JsNumber.isDigit ",") with false. cbv iota.
  assert (La : (0 + Z.of_nat (String.length (String c a)) =? 0) = false).
  { apply Z.eqb_neq. cbn [String.length]. lia. }
  rewrite La. cbn [andb JsNumber.scanExponent].
  change (Ascii.eqb "," "e" || Ascii.eqb "," "E")%char with false. cbv iota.
  unfold JsNumber.decimal, digitsValue. cbn [Z.sub Z.opp Z.add Z.leb Z.compare].
  change (10 ^ 0) with 1. now rewrite Z.mul_1_r.
Qed.

Lemma replace_leading_dollar (s : string) :
  JsString.replace (String "$" s) "$" "" = s.
Proof. reflexivity. Qed.

(** X17.  A price with a thousands separator is cut at the comma: for a
    price text "$a,rest" with digits a, such as "$1,299.99", the normalised
    price is the integer a. *)
Theorem price_is_cut_at_thousands_separator
    (items : list JsVal) (ps : list Product) (i : nat) (p : JsVal)
    (out : Product) (a rest : string) :
  convertAmazonDataToProducts (JArr items) = Ok ps ->
  nth_error items i = Some p ->
  nth_error ps i = Some out ->
  allDigits a = true -> a <> EmptyString ->
  Js.getPropOpt p "product_price" = JStr ("$" ++ a ++ "," ++ rest) ->
  price out = Finite (inject_Z (digitsValue a)).
Proof.
  intros C Hp Hout Da Na F.
  destruct (convertFrom_nth items _ _ C) as [_ At].
  destruct (At i p Hp) as [o [H1 H2]].
  rewrite Hout in H1. injection H1 as <-.
  apply convertProduct_ok in H2 as [_ ->]. cbn [price]. rewrite F.
  change ("$" ++ a ++ "," ++ rest) with (String "$" (a ++ "," ++ rest)).
  cbv beta iota. rewrite replace_leading_dollar.
  pose proof (parseFloat_stops_at_comma a rest Da Na) as P.
  unfold priceOf. rewrite P. cbn [JsNumber.truthy].
  destruct (Qeq_bool (inject_Z (digitsValue a)) 0) eqn:Z0; [|reflexivity].
  cbn [negb]. unfold JsNumber.zero. f_equal.
  apply Qeq_bool_eq in Z0. unfold Qeq, inject_Z in Z0. cbn in Z0.
  unfold inject_Z. f_equal. lia.
Qed.

Lemma price_is_cut_at_thousands_separator_witness :
  exists out,
    convertAmazonDataToProducts
      (JArr [JObj [("product_price", JStr "$1,299.99")]]) = Ok [out]
    /\ price out = Finite (inject_Z 1).
Proof.
  eexists. split; [reflexivity|].
  apply (price_is_cut_at_thousands_separator
           [JObj [("product_price", JStr "$1,299.99")]] _ 0
           (JObj [("product_price", JStr "$1,299.99")]) _ "1" "299.99"
           eq_refl eq_refl eq_refl eq_refl).
  - discriminate.
  - reflexivity.
Defined.

(** ** Further properties: the pages *)

(** X18.  [HomePage] never throws and sends nothing beyond what
    [getProducts] sends: when [getProducts] throws, whatever the error, it
    shows the error screen with 'Failed to load products. Please try again
    later.', otherwise the grid of the products returned. *)
Theorem HomePage_never_throws (w : World) (st : State) :
  snd (HomePage w st) = snd (getProducts w st)
  /\ (forall e,
         fst (getProducts w st) = Throw e ->
         fst (HomePage w st)
         = Ok (ErrorView "Failed to load products. Please try again later."))
  /\ (forall response,
         fst (getProducts w st) = Ok response ->
         fst (HomePage w st) = Ok (ProductListing (products response))).
Proof.
  unfold HomePage. run.
  destruct (getProducts w st) as [[response|e] s1]; cbn [fst snd];
    repeat split; try discriminate.
  - intros r H. now injection H as <-.
Qed.

Lemma HomePage_never_throws_witness :
  fst (HomePage Scenario.sellerDown Demo.fresh)
  = Ok (ErrorView "Failed to load products. Please try again later.").
Proof.
  apply (proj1 (proj2 (HomePage_never_throws Scenario.sellerDown Demo.fresh))
           (Error "Failed to fetch seller data: 503 Service Unavailable")).
  reflexivity.
Defined.

(** X19.  [ProductPage] never ends in the not-found page: the [notFound()]
    it calls for an unknown product is thrown inside its own [try] and
    caught there, so an unknown product, like any failure of [getProducts],
    shows the error screen with 'Failed to load product details. Please try
    again later.'; a known product shows its detail. *)
Theorem ProductPage_never_reaches_notFound
    (w : World) (productId : string) (st : State) :
  (exists view, fst (ProductPage w productId st) = Ok view)
  /\ (forall e,
         fst (getProducts w st) = Throw e ->
         fst (ProductPage w productId st)
         = Ok (ErrorView "Failed to load product details. Please try again later."))
  /\ (forall response,
         fst (getProducts w st) = Ok response ->
         (forall p,
             In p (products response) ->
             id p <> JStr productId /\ asin p <> JStr productId) ->
         fst (ProductPage w productId st)
         = Ok (ErrorView "Failed to load product details. Please try again later."))
  /\ (forall response product,
         fst (getProducts w st) = Ok response ->
         find (hasIdOrAsin productId) (products response) = Some product ->
         fst (ProductPage w productId st) = Ok (ProductDetail product)).
Proof.
  unfold ProductPage, notFound. run.
  destruct (getProducts w st) as [[response|e] s1]; cbn [fst snd].
  - destruct (find (hasIdOrAsin productId) (products response)) as [found|] eqn:F.
    + split; [eexists; reflexivity|]. split; [discriminate|]. split.
      * intros r H No. injection H as <-.
        apply find_some in F as [I M]. apply hasIdOrAsin_spec in M.
        destruct (No found I) as [N1 N2]. destruct M; contradiction.
      * intros r product H. injection H as <-. rewrite F.
        intros X. now injection X as <-.
    + split; [eexists; reflexivity|]. split; [discriminate|]. split.
      * reflexivity.
      * intros r product H. injection H as <-. rewrite F. discriminate.
  - split; [eexists; reflexivity|]. split; [reflexivity|].
    split; discriminate.
Qed.

Lemma ProductPage_never_reaches_notFound_witness :
  fst (ProductPage Demo.healthy "B000000000" Demo.fresh)
  = Ok (ErrorView "Failed to load product details. Please try again later.").
Proof.
  destruct (ProductPage_never_reaches_notFound Demo.healthy "B000000000"
              Demo.fresh) as (_ & _ & Unknown & _).
  apply (Unknown _ eq_refl).
  intros p [<- | []]. split; discriminate.
Defined.

(** ** Further properties: the requests of one render *)

Lemma readGuestToken_requests (w : World) (response : Response) (st : State) :
  requests (snd (readGuestToken w response st)) = requests st.
Proof.
  unfold readGuestToken. run.
  destruct (ok response); cbn [negb]; [|reflexivity].
  destruct (parseJSON w (readBody response)) as [data|]; [|reflexivity].
  destruct (accessTokenOf data) as [accessToken|]; [|reflexivity].
  destruct (Js.truthy accessToken); cbn [negb]; [|reflexivity].
  destruct (Js.stringMethod accessToken (fun s => s)) as [tok|]; [|reflexivity].
  pose proof (cacheToken_requests w tok st) as R.
  destruct (cacheToken w tok st) as [[u|e] s1]; exact R.
Qed.

Lemma readSellerData_state (w : World) (response : Response) (st : State) :
  snd (readSellerData w response st) = st.
Proof.
  unfold readSellerData. run.
  destruct (ok response); cbn [negb]; [|reflexivity].
  destruct (parseJSON w (readBody response)) as [data|]; [|reflexivity].
  destruct (Js.getProp data "data") as [d|]; [|reflexivity].
  destruct (sellerDataInvalid d); [reflexivity|].
  destruct (Js.first d) as [sellerInfo|]; [|reflexivity].
  destruct (logSellerInfo sellerInfo); reflexivity.
Qed.

Lemma getProducts_state (w : World) (st : State) :
  snd (getProducts w st) = snd (getSellerData w None st).
Proof.
  unfold getProducts. run.
  destruct (getSellerData w None st) as [[d|e] s1]; [|reflexivity].
  destruct (sellerProducts d) as [prods|e]; [|reflexivity].
  destruct (negb (Js.truthy prods) || Js.isZero (Js.getPropOpt prods "length"));
    [reflexivity|].
  destruct (convertAmazonDataToProducts prods); reflexivity.
Qed.

(** What [getGuestToken] sends: nothing, or the IP-echo GET followed by one
    request. *)
Lemma getGuestToken_requests (w : World) (st : State) :
  requests (snd (getGuestToken w st)) = requests st
  \/ exists req,
       requests (snd (getGuestToken w st))
       = (requests st ++ [ipRequest; req])%list.
Proof.
  rewrite getGuestToken_unfold.
  destruct (getCachedToken_keeps w st) as [_ R].
  destruct (getCachedToken w st) as [[[tok|]|e] s1]; cbn [snd] in *;
    try (left; exact R).
  right. destruct (exchangeFingerprint_unfold w s1) as (ip & _ & X).
  exists (tokenRequest w (randomUUID w (uuids_drawn s1)) ip
            (JsString.ofZ (Date_now w (clock_reads s1)))).
  assert (E : requests (snd (exchangeFingerprint w s1))
              = (requests st
                 ++ [ipRequest;
                     tokenRequest w (randomUUID w (uuids_drawn s1)) ip
                       (JsString.ofZ (Date_now w (clock_reads s1)))])%list).
  { rewrite X. unfold fetch. cbn [requests].
    destruct (network w _ _); cbn [snd requests];
      now rewrite R, <- app_assoc. }
  destruct (exchangeFingerprint w s1) as [[response|e] s2]; cbn [snd] in *;
    [|exact E].
  pose proof (readGuestToken_requests w response s2) as G.
  destruct (readGuestToken w response s2) as [[t|e] s3]; cbn [snd] in *;
    now rewrite G.
Qed.

(** X20.  One render sends at most three requests, and with a cached token
    that is not empty and not expired, and whose expiry is a time value
    [Date] can hold, it sends exactly one: the seller GET for the default
    request identifier, with the cached token as its [authorization] header;
    the cache is left as it was. *)
Theorem getProducts_request_budget (w : World) (st : State) :
  (List.length (requests (snd (getProducts w st)))
   <= List.length (requests st) + 3)%nat
  /\ forall entry,
       caches st = Caches true (Some entry) ->
       token entry <> EmptyString ->
       Date_now w (clock_reads st) < expires entry ->
       Z.abs (expires entry) <= MAX_TIME_VALUE ->
       requests (snd (getProducts w st))
       = (requests st
          ++ [sellerRequest w "31b88e54-acc9-4eee-8d45-e7e6410c448e"
                (token entry)])%list
       /\ caches (snd (getProducts w st)) = caches st.
Proof.
  rewrite getProducts_state.
  assert (S : forall tok s1,
             getGuestToken w st = (Ok tok, s1) ->
             snd (getSellerData w None st)
             = afterRequest (sellerRequest w (finalRequestId None) tok) s1).
  { intros tok s1 Tok.
    rewrite (getSellerData_after_token w None st s1 tok Tok).
    unfold fetch, afterRequest.
    destruct (network w (requests s1) _) as [e|r]; [reflexivity|].
    apply readSellerData_state. }
  split.
  - pose proof (getGuestToken_requests w st) as G.
    destruct (getGuestToken w st) as [[tok|e] s1] eqn:Tok.
    + rewrite (S tok s1 eq_refl). unfold afterRequest. cbn [requests snd] in *.
      rewrite length_app. cbn [List.length].
      destruct G as [-> | [req ->]]; [lia|].
      rewrite length_app. cbn [List.length]. lia.
    + assert (E : snd (getSellerData w None st) = s1)
        by (unfold getSellerData; run; now rewrite Tok).
      rewrite E. cbn [snd] in G.
      destruct G as [-> | [req ->]]; [lia|].
      rewrite length_app. cbn [List.length]. lia.
  - intros entry C N L R.
    rewrite (S _ _ (getGuestToken_hit w st entry C N L R)).
    unfold afterRequest, afterClockRead. cbn [requests caches]. now split.
Qed.

Lemma getProducts_request_budget_witness :
  requests (snd (getProducts Demo.healthy Scenario.warm))
  = [sellerRequest Demo.healthy "31b88e54-acc9-4eee-8d45-e7e6410c448e"
       "guest-warm"].
Proof.
  destruct (getProducts_request_budget Demo.healthy Scenario.warm) as [_ Hit].
  destruct (Hit (mkCachedData "guest-warm" 1700000300000) eq_refl) as [R _].
  - discriminate.
  - vm_compute. reflexivity.
  - vm_compute. discriminate.
  - rewrite R. reflexivity.
Defined.
